(** * Windows raw input filter (src/qt/qt_winrawinputfilter.cpp)

    A shallow embedding of [WindowsRawInputFilter::handle_input],
    [keyboard_handle] and [mouse_handle], and the properties of the keyboard
    and mouse decoders proved over it.

    The handlers are written in a small state monad over a [World] that holds
    the function-local statics of [mouse_handle], the parts of the host and of
    the emulated device that the handlers read, and the trace of calls made to
    the external collaborators (emulated keyboard and mouse, host cursor,
    fullscreen hotkey check, joystick handler). *)

From Stdlib Require Import ZArith List Bool Lia.
From Stdlib Require String.
Import ListNotations.
Import String.StringSyntax.
Delimit Scope string_scope with string.
Local Open Scope Z_scope.

(** ** Machine integers *)

Module CInt.

(** [int] and [LONG] are 32-bit two's complement on every Windows target. *)
Definition INT_MIN : Z := - 2 ^ 31.
Definition INT_MAX : Z := 2 ^ 31 - 1.

(** The value of a mathematical integer stored in an [int]. *)
Definition to_int (z : Z) : Z := (z + 2 ^ 31) mod 2 ^ 32 - 2 ^ 31.

(** The cast [(SHORT) v]. *)
Definition to_SHORT (z : Z) : Z := (z + 2 ^ 15) mod 2 ^ 16 - 2 ^ 15.

(** The value stored in a [USHORT]. *)
Definition to_USHORT (z : Z) : Z := z mod 2 ^ 16.

Definition in_int (z : Z) : Prop := INT_MIN <= z <= INT_MAX.
Definition in_USHORT (z : Z) : Prop := 0 <= z < 2 ^ 16.
Definition in_SHORT (z : Z) : Prop := - 2 ^ 15 <= z < 2 ^ 15.

(** C truth value of an integer used as a condition. *)
Definition truth (z : Z) : bool := negb (z =? 0).

(** [a & mask] used as a condition. *)
Definition has (a mask : Z) : bool := truth (Z.land a mask).

End CInt.
Import CInt.

(** ** Constants of the Windows raw input interface (winuser.h) *)

Definition RIM_TYPEMOUSE : Z := 0.
Definition RIM_TYPEKEYBOARD : Z := 1.
Definition RIM_TYPEHID : Z := 2.

Definition RI_KEY_BREAK : Z := 1.
Definition RI_KEY_E0 : Z := 2.
Definition RI_KEY_E1 : Z := 4.

Definition MOUSE_MOVE_ABSOLUTE : Z := 1.

Definition RI_MOUSE_LEFT_BUTTON_DOWN : Z := 0x0001.
Definition RI_MOUSE_LEFT_BUTTON_UP : Z := 0x0002.
Definition RI_MOUSE_RIGHT_BUTTON_DOWN : Z := 0x0004.
Definition RI_MOUSE_RIGHT_BUTTON_UP : Z := 0x0008.
Definition RI_MOUSE_MIDDLE_BUTTON_DOWN : Z := 0x0010.
Definition RI_MOUSE_MIDDLE_BUTTON_UP : Z := 0x0020.
Definition RI_MOUSE_BUTTON_4_DOWN : Z := 0x0040.
Definition RI_MOUSE_BUTTON_4_UP : Z := 0x0080.
Definition RI_MOUSE_BUTTON_5_DOWN : Z := 0x0100.
Definition RI_MOUSE_BUTTON_5_UP : Z := 0x0200.
Definition RI_MOUSE_WHEEL : Z := 0x0400.

(** ** Raw input records *)

(** RAWKEYBOARD: [MakeCode] and [Flags] are USHORT. *)
Record RAWKEYBOARD := mkRAWKEYBOARD {
  MakeCode : Z;
  Flags : Z
}.

(** RAWMOUSE: [usFlags], [usButtonFlags], [usButtonData] are USHORT,
    [lLastX], [lLastY] are LONG. *)
Record RAWMOUSE := mkRAWMOUSE {
  usFlags : Z;
  usButtonFlags : Z;
  usButtonData : Z;
  lLastX : Z;
  lLastY : Z
}.

(** RAWINPUT: the header's device type and the two views of the [data] union
    that the handlers read. *)
Record RAWINPUT := mkRAWINPUT {
  header_dwType : Z;
  data_keyboard : RAWKEYBOARD;
  data_mouse : RAWMOUSE
}.

Record RECT := mkRECT {
  rect_left : Z;
  rect_top : Z;
  rect_right : Z;
  rect_bottom : Z
}.

(** ** Calls to the external collaborators *)

Inductive Event : Type :=
| KeyboardInput (down : bool) (scancode : Z)   (* keyboard_input(down, scan) *)
| CheckFullscreenHotkey                        (* window->checkFullscreenHotkey() *)
| MouseSetButtonsEx (b : Z)                    (* mouse_set_buttons_ex(b) *)
| MouseSetZ (z : Z)                            (* mouse_set_z(z) *)
| MouseScale (dx dy : Z)                       (* mouse_scale(dx, dy) *)
| SetCursorPosCall (X Y : Z)                   (* SetCursorPos(X, Y) *)
| WinJoystickHandle (raw : RAWINPUT).          (* win_joystick_handle(raw) *)

Definition is_KeyboardInput (e : Event) : bool :=
  match e with KeyboardInput _ _ => true | _ => false end.
Definition is_CheckFullscreenHotkey (e : Event) : bool :=
  match e with CheckFullscreenHotkey => true | _ => false end.
Definition is_MouseSetZ (e : Event) : bool :=
  match e with MouseSetZ _ => true | _ => false end.
Definition is_MouseScale (e : Event) : bool :=
  match e with MouseScale _ _ => true | _ => false end.
Definition is_SetCursorPos (e : Event) : bool :=
  match e with SetCursorPosCall _ _ => true | _ => false end.

(** ** The world the handlers run in *)

Record World := mkWorld {
  (* static int x, delta_x; static int y, delta_y; static int b, delta_z; *)
  static_x : Z;
  static_delta_x : Z;
  static_y : Z;
  static_delta_y : Z;
  static_b : Z;
  static_delta_z : Z;
  (* extern int mouse_capture *)
  mouse_capture : Z;
  (* the emulated mouse's button mask, see [mouse_get_buttons_ex] *)
  mouse_buttons : Z;
  (* what GetWindowRect reports for the main window *)
  window_rect : RECT;
  (* calls made so far, oldest first *)
  trace : list Event
}.

(** Statics have static storage duration: zero before the first call. *)
Definition initial_World (capture : Z) (rect : RECT) : World :=
  mkWorld 0 0 0 0 0 0 capture 0 rect [].

Module StateMonad.

Definition M (A : Type) : Type := World -> A * World.

Definition ret {A} (a : A) : M A := fun w => (a, w).

Definition bind {A B} (m : M A) (k : A -> M B) : M B :=
  fun w => let (a, w') := m w in k a w'.

Definition exec {A} (m : M A) (w : World) : World := snd (m w).

(** The calls made by [m] when started in [w]. *)
Definition emitted {A} (m : M A) (w : World) : list Event :=
  skipn (length (trace w)) (trace (exec m w)).

End StateMonad.
Import StateMonad.

Declare Scope monad_scope.
Delimit Scope monad_scope with monad.
Notation "x <- m ;; k" := (bind m (fun x => k))
  (at level 61, m at next level, right associativity) : monad_scope.
Notation "m ;; k" := (bind m (fun _ => k))
  (at level 61, right associativity) : monad_scope.
Local Open Scope monad_scope.

(** Primitive actions. *)

Definition emit (e : Event) : M unit := fun w =>
  (tt, mkWorld (static_x w) (static_delta_x w) (static_y w) (static_delta_y w)
               (static_b w) (static_delta_z w) (mouse_capture w)
               (mouse_buttons w) (window_rect w) (trace w ++ [e])).

Definition get_x : M Z := fun w => (static_x w, w).
Definition get_y : M Z := fun w => (static_y w, w).
Definition get_b : M Z := fun w => (static_b w, w).
Definition get_delta_x : M Z := fun w => (static_delta_x w, w).
Definition get_delta_y : M Z := fun w => (static_delta_y w, w).
Definition get_delta_z : M Z := fun w => (static_delta_z w, w).

Definition set_x (v : Z) : M unit := fun w =>
  (tt, mkWorld v (static_delta_x w) (static_y w) (static_delta_y w)
               (static_b w) (static_delta_z w) (mouse_capture w)
               (mouse_buttons w) (window_rect w) (trace w)).
Definition set_delta_x (v : Z) : M unit := fun w =>
  (tt, mkWorld (static_x w) v (static_y w) (static_delta_y w)
               (static_b w) (static_delta_z w) (mouse_capture w)
               (mouse_buttons w) (window_rect w) (trace w)).
Definition set_y (v : Z) : M unit := fun w =>
  (tt, mkWorld (static_x w) (static_delta_x w) v (static_delta_y w)
               (static_b w) (static_delta_z w) (mouse_capture w)
               (mouse_buttons w) (window_rect w) (trace w)).
Definition set_delta_y (v : Z) : M unit := fun w =>
  (tt, mkWorld (static_x w) (static_delta_x w) (static_y w) v
               (static_b w) (static_delta_z w) (mouse_capture w)
               (mouse_buttons w) (window_rect w) (trace w)).
Definition set_b (v : Z) : M unit := fun w =>
  (tt, mkWorld (static_x w) (static_delta_x w) (static_y w) (static_delta_y w)
               v (static_delta_z w) (mouse_capture w)
               (mouse_buttons w) (window_rect w) (trace w)).
Definition set_delta_z (v : Z) : M unit := fun w =>
  (tt, mkWorld (static_x w) (static_delta_x w) (static_y w) (static_delta_y w)
               (static_b w) v (mouse_capture w)
               (mouse_buttons w) (window_rect w) (trace w)).

Definition get_mouse_capture : M Z := fun w => (mouse_capture w, w).

(** ** External collaborators *)

(** Modelled from the spec: the emulated mouse's button store
    ([mouse_get_buttons_ex] and [mouse_set_buttons_ex] are defined in the
    device backend, not in this file).  The store "accepts updated 5-bit
    button mask" and "exposes current mask for read-modify-write": a read
    returns the mask written last. *)
Definition mouse_get_buttons_ex : M Z := fun w => (mouse_buttons w, w).

Definition mouse_set_buttons_ex (v : Z) : M unit := fun w =>
  (tt, mkWorld (static_x w) (static_delta_x w) (static_y w) (static_delta_y w)
               (static_b w) (static_delta_z w) (mouse_capture w)
               v (window_rect w) (trace w ++ [MouseSetButtonsEx v])).

Definition keyboard_input (down : bool) (scan : Z) : M unit :=
  emit (KeyboardInput down scan).
Definition checkFullscreenHotkey : M unit := emit CheckFullscreenHotkey.
Definition mouse_set_z (z : Z) : M unit := emit (MouseSetZ z).
Definition mouse_scale (dx dy : Z) : M unit := emit (MouseScale dx dy).
Definition SetCursorPos (X Y : Z) : M unit := emit (SetCursorPosCall X Y).
Definition win_joystick_handle (raw : RAWINPUT) : M unit :=
  emit (WinJoystickHandle raw).
Definition GetWindowRect : M RECT := fun w => (window_rect w, w).

(** ** The handlers *)

Section Handlers.

(** Declared in 86box/keyboard.h and 86box/86box.h, outside this file:
    the 9-bit scan code conversion, the remap table loaded from the
    Registry with its number of entries, and the configuration flag. *)
Variable convert_scan_code : Z -> Z.
Variable scancode_map : Z -> Z.
Variable scancode_map_len : Z.  (* sizeof(scancode_map) / sizeof(scancode_map[0]) *)
Variable rctrl_is_lalt : Z.

(** *** keyboard_handle *)

(** [!(rawKB.Flags & RI_KEY_BREAK)] *)
Definition key_down (rawKB : RAWKEYBOARD) : bool :=
  negb (has (Flags rawKB) RI_KEY_BREAK).

(** Lines 172 and 187-188: the make code with the E0 bit. *)
Definition prefixed_code (rawKB : RAWKEYBOARD) : Z :=
  let scancode := MakeCode rawKB in
  if has (Flags rawKB) RI_KEY_E0 then to_USHORT (Z.lor scancode 0x100)
  else scancode.

(** Line 191: the code the remap table is consulted with. *)
Definition lookup_code (rawKB : RAWKEYBOARD) : Z :=
  convert_scan_code (prefixed_code rawKB).

(** Lines 194-197: remap according to the list from the Registry. *)
Definition remap (scancode : Z) : Z :=
  if (scancode <? scancode_map_len) && negb (scancode =? scancode_map scancode)
  then scancode_map scancode
  else scancode.

(** Lines 207-208: right CTRL to left ALT. *)
Definition rctrl_to_lalt (scancode : Z) : Z :=
  if (scancode =? 0x11d) && truth rctrl_is_lalt then 0x038 else scancode.

(** Lines 184-185 and 212-213. *)
Definition send_key (rawKB : RAWKEYBOARD) (scancode : Z) : M unit :=
  if negb (scancode =? 0xFFFF) then keyboard_input (key_down rawKB) scancode
  else ret tt.

Definition keyboard_handle (raw : RAWINPUT) : M unit :=
  let rawKB := data_keyboard raw in
  if has (Flags rawKB) RI_KEY_E1 then
    let scancode :=
      if MakeCode rawKB =? 0x1D then scancode_map 0x100 else 0xFFFF in
    send_key rawKB scancode
  else
    let scancode := lookup_code rawKB in
    let scancode := remap scancode in
    let scancode := rctrl_to_lalt scancode in
    send_key rawKB scancode ;;
    checkFullscreenHotkey.

(** *** mouse_handle *)

(** [if (flags & DOWN) b |= bit; else if (flags & UP) b &= ~bit;] *)
Definition button (flags down up bit : Z) : M unit :=
  if has flags down then
    b <- get_b ;; set_b (Z.lor b bit)
  else if has flags up then
    b <- get_b ;; set_b (Z.land b (Z.lnot bit))
  else ret tt.

Definition mouse_handle (raw : RAWINPUT) : M unit :=
  let state := data_mouse raw in
  b <- mouse_get_buttons_ex ;;
  set_b b ;;
  (* read mouse buttons and wheel *)
  button (usButtonFlags state) RI_MOUSE_LEFT_BUTTON_DOWN RI_MOUSE_LEFT_BUTTON_UP 1 ;;
  button (usButtonFlags state) RI_MOUSE_MIDDLE_BUTTON_DOWN RI_MOUSE_MIDDLE_BUTTON_UP 4 ;;
  button (usButtonFlags state) RI_MOUSE_RIGHT_BUTTON_DOWN RI_MOUSE_RIGHT_BUTTON_UP 2 ;;
  button (usButtonFlags state) RI_MOUSE_BUTTON_4_DOWN RI_MOUSE_BUTTON_4_UP 8 ;;
  button (usButtonFlags state) RI_MOUSE_BUTTON_5_DOWN RI_MOUSE_BUTTON_5_UP 16 ;;
  b <- get_b ;;
  mouse_set_buttons_ex b ;;
  (if has (usButtonFlags state) RI_MOUSE_WHEEL then
     set_delta_z (to_SHORT (usButtonData state) ÷ 120) ;;
     delta_z <- get_delta_z ;;
     mouse_set_z delta_z
   else
     set_delta_z 0) ;;
  (if has (usFlags state) MOUSE_MOVE_ABSOLUTE then
     (* absolute mouse, i.e. RDP or VNC *)
     x <- get_x ;;
     set_delta_x (to_int (lLastX state - x) ÷ 25) ;;
     y <- get_y ;;
     set_delta_y (to_int (lLastY state - y) ÷ 25) ;;
     set_x (lLastX state) ;;
     set_y (lLastY state)
   else
     (* relative mouse, i.e. regular mouse *)
     set_delta_x (lLastX state) ;;
     set_delta_y (lLastY state)) ;;
  delta_x <- get_delta_x ;;
  delta_y <- get_delta_y ;;
  mouse_scale delta_x delta_y ;;
  rect <- GetWindowRect ;;
  let left :=
    to_int (rect_left rect + to_int (rect_right rect - rect_left rect) ÷ 2) in
  let top :=
    to_int (rect_top rect + to_int (rect_bottom rect - rect_top rect) ÷ 2) in
  SetCursorPos left top.

(** *** handle_input *)

(** [input] is what the second GetRawInputData call delivers: [Some raw]
    when it returns [size], [None] otherwise. *)
Definition handle_input (input : option RAWINPUT) : M unit :=
  match input with
  | Some raw =>
      if header_dwType raw =? RIM_TYPEKEYBOARD then
        keyboard_handle raw
      else if header_dwType raw =? RIM_TYPEMOUSE then
        capture <- get_mouse_capture ;;
        if truth capture then mouse_handle raw else ret tt
      else if header_dwType raw =? RIM_TYPEHID then
        win_joystick_handle raw
      else ret tt
  | None => ret tt
  end.

End Handlers.

(** ** What one call of [mouse_handle] computes

    Closed forms of the values [mouse_handle] leaves in its statics, used to
    state the run lemma below. *)

Definition button_val (flags down up bit b : Z) : Z :=
  if has flags down then Z.lor b bit
  else if has flags up then Z.land b (Z.lnot bit)
  else b.

Definition buttons_after (flags b : Z) : Z :=
  let b := button_val flags RI_MOUSE_LEFT_BUTTON_DOWN RI_MOUSE_LEFT_BUTTON_UP 1 b in
  let b := button_val flags RI_MOUSE_MIDDLE_BUTTON_DOWN RI_MOUSE_MIDDLE_BUTTON_UP 4 b in
  let b := button_val flags RI_MOUSE_RIGHT_BUTTON_DOWN RI_MOUSE_RIGHT_BUTTON_UP 2 b in
  let b := button_val flags RI_MOUSE_BUTTON_4_DOWN RI_MOUSE_BUTTON_4_UP 8 b in
  button_val flags RI_MOUSE_BUTTON_5_DOWN RI_MOUSE_BUTTON_5_UP 16 b.

Definition wheel_after (state : RAWMOUSE) : Z :=
  if has (usButtonFlags state) RI_MOUSE_WHEEL
  then to_SHORT (usButtonData state) ÷ 120 else 0.

Definition wheel_calls (state : RAWMOUSE) : list Event :=
  if has (usButtonFlags state) RI_MOUSE_WHEEL
  then [MouseSetZ (to_SHORT (usButtonData state) ÷ 120)] else [].

Definition motion_after (state : RAWMOUSE) (x y : Z) : (Z * Z) * (Z * Z) :=
  if has (usFlags state) MOUSE_MOVE_ABSOLUTE
  then ((lLastX state, lLastY state),
        (to_int (lLastX state - x) ÷ 25, to_int (lLastY state - y) ÷ 25))
  else ((x, y), (lLastX state, lLastY state)).

Definition center (rect : RECT) : Z * Z :=
  (to_int (rect_left rect + to_int (rect_right rect - rect_left rect) ÷ 2),
   to_int (rect_top rect + to_int (rect_bottom rect - rect_top rect) ÷ 2)).

Definition mouse_handle_calls (raw : RAWINPUT) (w : World) : list Event :=
  let state := data_mouse raw in
  let d := snd (motion_after state (static_x w) (static_y w)) in
  [MouseSetButtonsEx (buttons_after (usButtonFlags state) (mouse_buttons w))]
  ++ wheel_calls state
  ++ [MouseScale (fst d) (snd d);
      SetCursorPosCall (fst (center (window_rect w))) (snd (center (window_rect w)))].

(** ** What one call of [keyboard_handle] emits *)

(** Append calls to the trace, leaving everything else as it is. *)
Definition log (es : list Event) (w : World) : World :=
  mkWorld (static_x w) (static_delta_x w) (static_y w) (static_delta_y w)
          (static_b w) (static_delta_z w) (mouse_capture w)
          (mouse_buttons w) (window_rect w) (trace w ++ es).

Definition key_calls (rawKB : RAWKEYBOARD) (scancode : Z) : list Event :=
  if scancode =? 0xFFFF then [] else [KeyboardInput (key_down rawKB) scancode].

Definition keyboard_calls (convert_scan_code scancode_map : Z -> Z)
    (scancode_map_len rctrl_is_lalt : Z) (raw : RAWINPUT) : list Event :=
  let rawKB := data_keyboard raw in
  if has (Flags rawKB) RI_KEY_E1 then
    key_calls rawKB (if MakeCode rawKB =? 0x1D then scancode_map 0x100 else 0xFFFF)
  else
    key_calls rawKB
      (rctrl_to_lalt rctrl_is_lalt
         (remap scancode_map scancode_map_len
            (lookup_code convert_scan_code rawKB)))
    ++ [CheckFullscreenHotkey].

(** ** Definitions used to state the properties *)

Definition with_mouse_capture (c : Z) (w : World) : World :=
  mkWorld (static_x w) (static_delta_x w) (static_y w) (static_delta_y w)
          (static_b w) (static_delta_z w) c
          (mouse_buttons w) (window_rect w) (trace w).

Definition with_button_flags (flags : Z) (raw : RAWINPUT) : RAWINPUT :=
  let state := data_mouse raw in
  mkRAWINPUT (header_dwType raw) (data_keyboard raw)
    (mkRAWMOUSE (usFlags state) flags (usButtonData state)
                (lLastX state) (lLastY state)).

(** A sequence of mouse reports handled one after the other. *)
Definition run_mouse (reports : list RAWINPUT) (w : World) : World :=
  fold_left (fun w raw => exec (mouse_handle raw) w) reports w.

(** The coordinates of the last absolute report of a sequence, [init] when it
    has none. *)
Definition last_sample (reports : list RAWINPUT) (init : Z * Z) : Z * Z :=
  fold_left
    (fun p raw =>
       if has (usFlags (data_mouse raw)) MOUSE_MOVE_ABSOLUTE
       then (lLastX (data_mouse raw), lLastY (data_mouse raw)) else p)
    reports init.

(** The DOWN flag, UP flag and mask bit of each of the five buttons. *)
Definition button_flags : list (Z * Z * Z) :=
  [ (RI_MOUSE_LEFT_BUTTON_DOWN, RI_MOUSE_LEFT_BUTTON_UP, 1);
    (RI_MOUSE_MIDDLE_BUTTON_DOWN, RI_MOUSE_MIDDLE_BUTTON_UP, 4);
    (RI_MOUSE_RIGHT_BUTTON_DOWN, RI_MOUSE_RIGHT_BUTTON_UP, 2);
    (RI_MOUSE_BUTTON_4_DOWN, RI_MOUSE_BUTTON_4_UP, 8);
    (RI_MOUSE_BUTTON_5_DOWN, RI_MOUSE_BUTTON_5_UP, 16) ].

(** A window rectangle whose coordinates, width and height are [int]s. *)
Definition rect_ok (rect : RECT) : Prop :=
  in_int (rect_left rect) /\ in_int (rect_right rect)
  /\ in_int (rect_top rect) /\ in_int (rect_bottom rect)
  /\ in_int (rect_right rect - rect_left rect)
  /\ in_int (rect_bottom rect - rect_top rect).

(** Sample inputs. *)
Definition identity_map (c : Z) : Z := c.

(** Sample remap tables: one that remaps right Ctrl (0x11D) to left Ctrl
    (0x01D), one that remaps left Ctrl to right Ctrl. *)
Definition rctrl_to_lctrl_map (c : Z) : Z := if c =? 0x11D then 0x01D else c.
Definition lctrl_to_rctrl_map (c : Z) : Z := if c =? 0x01D then 0x11D else c.

Definition key_report (make flags : Z) : RAWINPUT :=
  mkRAWINPUT RIM_TYPEKEYBOARD (mkRAWKEYBOARD make flags) (mkRAWMOUSE 0 0 0 0 0).

Definition mouse_report (flags buttons data X Y : Z) : RAWINPUT :=
  mkRAWINPUT RIM_TYPEMOUSE (mkRAWKEYBOARD 0 0) (mkRAWMOUSE flags buttons data X Y).

Definition sample_rect : RECT := mkRECT 100 50 900 650.

(** ** nativeEventFilter *)

Definition WM_INPUT : Z := 0x00FF.
Definition WM_SYSKEYDOWN : Z := 0x0104.

(** MSG: the message number, [wParam], and for [lParam] what reading the raw
    input handle it carries delivers (see [handle_input]). *)
Record MSG := mkMSG {
  message : Z;
  wParam : Z;
  lParam : option RAWINPUT
}.

(** What the filter reads of its MainWindow: [isActiveWindow()] and the
    [renderers] array, each entry a null pointer ([None]) or a renderer stack
    with its own [isActiveWindow()]. *)
Record MainWindow := mkMainWindow {
  isActiveWindow : bool;
  renderers : list (option bool)
}.

Section EventFilter.

Variable convert_scan_code : Z -> Z.
Variable scancode_map : Z -> Z.
Variable scancode_map_len : Z.
Variable rctrl_is_lalt : Z.
(** The filter's members. *)
Variable window : MainWindow.
Variable menus_open : Z.

(** Lines 113-118: the loop over [window->renderers], left at the first
    active renderer. *)
Fixpoint handle_in_active_renderer
    (rs : list (option bool)) (input : option RAWINPUT) : M unit :=
  match rs with
  | [] => ret tt
  | w :: rs =>
      if match w with Some active => active | None => false end
      then handle_input convert_scan_code scancode_map scancode_map_len
             rctrl_is_lalt input (* break *)
      else handle_in_active_renderer rs input
  end.

Definition nativeEventFilter (eventType : String.string) (msg : MSG) : M bool :=
  if String.eqb eventType "windows_generic_MSG"%string then
    if message msg =? WM_INPUT then
      (if isActiveWindow window && (menus_open =? 0) then
         handle_input convert_scan_code scancode_map scancode_map_len
           rctrl_is_lalt (lParam msg)
       else
         handle_in_active_renderer (renderers window) (lParam msg)) ;;
      ret true
    else
      (* Stop processing of Alt-F4 *)
      if message msg =? WM_SYSKEYDOWN then
        if wParam msg =? 0x73 then ret true else ret false
      else ret false
  else ret false.

End EventFilter.

(** ** More definitions used to state properties *)

Definition with_key_flags (flags : Z) (raw : RAWINPUT) : RAWINPUT :=
  mkRAWINPUT (header_dwType raw)
    (mkRAWKEYBOARD (MakeCode (data_keyboard raw)) flags) (data_mouse raw).

(** The same call for the key going up. *)
Definition release (e : Event) : Event :=
  match e with
  | KeyboardInput _ scancode => KeyboardInput false scancode
  | _ => e
  end.

Definition is_keyboard_call (e : Event) : bool :=
  match e with
  | KeyboardInput _ _ | CheckFullscreenHotkey => true
  | _ => false
  end.

Definition is_mouse_call (e : Event) : bool :=
  match e with
  | MouseSetButtonsEx _ | MouseSetZ _ | MouseScale _ _ | SetCursorPosCall _ _ => true
  | _ => false
  end.

(** A sequence of absolute reports each less than 25 units away, in x and in
    y, from the sample before it ([px], [py] for the first). *)
Fixpoint slow_path (px py : Z) (reports : list RAWINPUT) : Prop :=
  match reports with
  | [] => True
  | raw :: reports =>
      let state := data_mouse raw in
      has (usFlags state) MOUSE_MOVE_ABSOLUTE = true
      /\ Z.abs (lLastX state - px) < 25
      /\ Z.abs (lLastY state - py) < 25
      /\ slow_path (lLastX state) (lLastY state) reports
  end.

(** Everything the mouse decoder keeps between calls: its statics and the
    emulated mouse's button mask. *)
Definition decoder_state (w : World) : Z * Z * Z * Z * Z * Z * Z :=
  (static_x w, static_delta_x w, static_y w, static_delta_y w,
   static_b w, static_delta_z w, mouse_buttons w).

(** Whether a WM_INPUT message is handed to [handle_input]. *)
Definition input_accepted (window : MainWindow) (menus_open : Z) : bool :=
  (isActiveWindow window && (menus_open =? 0))
  || existsb (fun w => match w with Some active => active | None => false end)
             (renderers window).

(** ** Run lemmas *)

Lemma button_run flags down up bit w :
  button flags down up bit w =
  (tt, mkWorld (static_x w) (static_delta_x w) (static_y w) (static_delta_y w)
               (button_val flags down up bit (static_b w)) (static_delta_z w)
               (mouse_capture w) (mouse_buttons w) (window_rect w) (trace w)).
Proof.
  unfold button, button_val.
  destruct w; destruct (has flags down); [reflexivity|].
  destruct (has flags up); reflexivity.
Qed.

Lemma mouse_handle_run raw w :
  mouse_handle raw w =
  let state := data_mouse raw in
  let m := motion_after state (static_x w) (static_y w) in
  let b := buttons_after (usButtonFlags state) (mouse_buttons w) in
  (tt, mkWorld (fst (fst m)) (fst (snd m)) (snd (fst m)) (snd (snd m))
               b (wheel_after state)
               (mouse_capture w) b (window_rect w)
               (trace w ++ mouse_handle_calls raw w)).
Proof.
  unfold mouse_handle, mouse_handle_calls, bind at 1 2.
  unfold mouse_get_buttons_ex at 1. unfold set_b at 1.
  repeat (unfold bind at 1; rewrite button_run; cbn [static_b static_x static_y
    static_delta_x static_delta_y static_delta_z mouse_capture mouse_buttons
    window_rect trace]).
  unfold wheel_after, wheel_calls, motion_after, buttons_after, center.
  destruct w as [x dx y dy b dz cap mb rect tr]; cbn [static_b static_x static_y
    static_delta_x static_delta_y static_delta_z mouse_capture mouse_buttons
    window_rect trace].
  destruct (has (usButtonFlags (data_mouse raw)) RI_MOUSE_WHEEL),
           (has (usFlags (data_mouse raw)) MOUSE_MOVE_ABSOLUTE);
    cbv [bind get_b mouse_set_buttons_ex set_delta_z get_delta_z mouse_set_z emit
         get_x get_y set_delta_x set_delta_y set_x set_y get_delta_x get_delta_y
         mouse_scale GetWindowRect SetCursorPos
         static_b static_x static_y static_delta_x static_delta_y static_delta_z
         mouse_capture mouse_buttons window_rect trace fst snd];
    rewrite <- ?app_assoc; reflexivity.
Qed.

Lemma log_nil w : log [] w = w.
Proof. destruct w; unfold log; cbn; rewrite app_nil_r; reflexivity. Qed.

Lemma log_log es es' w : log es' (log es w) = log (es ++ es') w.
Proof. unfold log; cbn; rewrite app_assoc; reflexivity. Qed.

Lemma emit_run e w : emit e w = (tt, log [e] w).
Proof. reflexivity. Qed.

Lemma skipn_length_app {A} (l l' : list A) : skipn (length l) (l ++ l') = l'.
Proof. induction l; cbn; auto. Qed.

Lemma emitted_log {A} (m : M A) (a : A) es w :
  m w = (a, log es w) -> emitted m w = es.
Proof.
  intros E; unfold emitted, exec; rewrite E; cbn.
  apply skipn_length_app.
Qed.

Lemma emitted_trace {A} (m : M A) es w :
  trace (exec m w) = trace w ++ es -> emitted m w = es.
Proof. intros E; unfold emitted; rewrite E; apply skipn_length_app. Qed.

Lemma send_key_run rawKB scancode w :
  send_key rawKB scancode w = (tt, log (key_calls rawKB scancode) w).
Proof.
  unfold send_key, key_calls.
  destruct (scancode =? 0xFFFF); cbn [negb].
  - now rewrite log_nil.
  - reflexivity.
Qed.

Lemma keyboard_handle_run csc map len rctrl raw w :
  keyboard_handle csc map len rctrl raw w
  = (tt, log (keyboard_calls csc map len rctrl raw) w).
Proof.
  unfold keyboard_handle, keyboard_calls.
  destruct (has (Flags (data_keyboard raw)) RI_KEY_E1).
  - apply send_key_run.
  - unfold bind; rewrite send_key_run.
    unfold checkFullscreenHotkey; rewrite emit_run, log_log; reflexivity.
Qed.

Lemma keyboard_handle_emitted csc map len rctrl raw w :
  emitted (keyboard_handle csc map len rctrl raw) w
  = keyboard_calls csc map len rctrl raw.
Proof. eapply emitted_log, keyboard_handle_run. Qed.

Lemma mouse_handle_emitted raw w :
  emitted (mouse_handle raw) w = mouse_handle_calls raw w.
Proof.
  apply emitted_trace; unfold exec; rewrite mouse_handle_run; reflexivity.
Qed.

(** ** Bit-level facts *)

Lemma lor_below_pow2 a b n :
  0 < n -> 0 <= a < 2 ^ n -> 0 <= b < 2 ^ n -> 0 <= Z.lor a b < 2 ^ n.
Proof.
  intros Hn Ha Hb.
  assert (H0 : 0 <= Z.lor a b) by (apply Z.lor_nonneg; lia).
  split; [exact H0|].
  destruct (Z.eq_dec (Z.lor a b) 0) as [E|E].
  - rewrite E; apply Z.pow_pos_nonneg; lia.
  - apply Z.log2_lt_pow2; [lia|].
    rewrite Z.log2_lor by lia.
    assert (La : Z.log2 a < n).
    { destruct (Z.eq_dec a 0) as [->|]; [cbn; lia|apply Z.log2_lt_pow2; lia]. }
    assert (Lb : Z.log2 b < n).
    { destruct (Z.eq_dec b 0) as [->|]; [cbn; lia|apply Z.log2_lt_pow2; lia]. }
    lia.
Qed.

Lemma prefixed_code_spec rawKB :
  in_USHORT (MakeCode rawKB) ->
  prefixed_code rawKB
  = Z.lor (MakeCode rawKB) (if has (Flags rawKB) RI_KEY_E0 then 0x100 else 0).
Proof.
  intros H; unfold prefixed_code, in_USHORT in *.
  destruct (has (Flags rawKB) RI_KEY_E0).
  - unfold to_USHORT; apply Z.mod_small.
    apply (lor_below_pow2 _ _ 16); lia.
  - now rewrite Z.lor_0_r.
Qed.

(** ** Keyboard decoder *)

(** C4 (as amended).  For every non-E1 keyboard report whose make code is a
    USHORT, the code handed to [convert_scan_code] is
    [makeCode | (0x100 if E0 else 0)]; the remap table is consulted with the
    conversion's result, and the report's calls are determined by it.  When
    the make code is at most 0xFF that prefixed code is below 0x200, and at
    least 0x100 when E0 is set. *)
Theorem lookup_code_is_converted_prefixed_code
    (csc map : Z -> Z) (len rctrl : Z) (raw : RAWINPUT) (w : World) :
  let rawKB := data_keyboard raw in
  let prefixed :=
    Z.lor (MakeCode rawKB) (if has (Flags rawKB) RI_KEY_E0 then 0x100 else 0) in
  in_USHORT (MakeCode rawKB) ->
  has (Flags rawKB) RI_KEY_E1 = false ->
  lookup_code csc rawKB = csc prefixed
  /\ emitted (keyboard_handle csc map len rctrl raw) w
     = key_calls rawKB (rctrl_to_lalt rctrl (remap map len (csc prefixed)))
       ++ [CheckFullscreenHotkey]
  /\ (MakeCode rawKB <= 0xFF -> prefixed < 0x200)
  /\ (has (Flags rawKB) RI_KEY_E0 = true -> 0x100 <= prefixed).
Proof.
  intros rawKB prefixed HU HE1.
  assert (L : lookup_code csc rawKB = csc prefixed).
  { unfold lookup_code; now rewrite prefixed_code_spec. }
  split; [exact L|]. split.
  - rewrite keyboard_handle_emitted; unfold keyboard_calls.
    fold rawKB; now rewrite HE1, L.
  - unfold in_USHORT in HU; subst prefixed; split.
    + intros Hm.
      assert (B : 0 <= (if has (Flags rawKB) RI_KEY_E0 then 0x100 else 0) < 2 ^ 9)
        by (destruct (has (Flags rawKB) RI_KEY_E0); lia).
      apply (lor_below_pow2 (MakeCode rawKB) _ 9); lia.
    + intros ->; cbv iota.
      assert (T : Z.testbit (Z.lor (MakeCode rawKB) 0x100) 8 = true)
        by (rewrite Z.lor_spec; apply orb_true_r).
      destruct (Z_lt_le_dec (Z.lor (MakeCode rawKB) 0x100) 0x100) as [Hlt|]; [|lia].
      assert (N : 0 <= Z.lor (MakeCode rawKB) 256) by (apply Z.lor_nonneg; lia).
      rewrite (Z.bits_above_log2 _ 8) in T; [discriminate|lia|].
      destruct (Z.eq_dec (Z.lor (MakeCode rawKB) 256) 0) as [->|]; [cbn; lia|].
      apply Z.log2_lt_pow2; lia.
Qed.

Lemma lookup_code_is_converted_prefixed_code_witness :
  lookup_code identity_map (mkRAWKEYBOARD 0x1D RI_KEY_E0) = 0x11D
  /\ emitted (keyboard_handle identity_map identity_map 512 0
                (key_report 0x1D RI_KEY_E0)) (initial_World 0 sample_rect)
     = [KeyboardInput true 0x11D; CheckFullscreenHotkey].
Proof.
  destruct (lookup_code_is_converted_prefixed_code identity_map identity_map
              512 0 (key_report 0x1D RI_KEY_E0) (initial_World 0 sample_rect))
    as (L & E & _).
  - unfold in_USHORT; cbn; lia.
  - reflexivity.
  - split; [exact L | exact E].
Defined.

(** C4 (as stated) fails.  A make code is a USHORT; at make code 0x200
    without E0, whatever [convert_scan_code] is, the lookup code cannot both
    equal [makeCode | 0] = 0x200 and stay below 0x200. *)
Lemma prefixed_lookup_fails_at_make_0x200 :
  ~ exists csc : Z -> Z,
      let rawKB := mkRAWKEYBOARD 0x200 0 in
      has (Flags rawKB) RI_KEY_E1 = false
      /\ lookup_code csc rawKB
         = Z.lor (MakeCode rawKB) (if has (Flags rawKB) RI_KEY_E0 then 0x100 else 0)
      /\ lookup_code csc rawKB < 0x200.
Proof.
  intros (csc & _ & E & B).
  rewrite E in B; cbn in B; lia.
Qed.

(** C5 (as stated) fails in its last part.  The rule does not override a
    table entry for 0x11D: with the flag enabled and a table that remaps
    0x11D to 0x01D, a right-Ctrl report (E0 1D) sends 0x01D, not 0x038. *)
Lemma remapped_rctrl_is_not_overridden :
  let raw := key_report 0x1D RI_KEY_E0 in
  let calls := emitted (keyboard_handle identity_map rctrl_to_lctrl_map 512 1 raw)
                       (initial_World 0 sample_rect) in
  lookup_code identity_map (data_keyboard raw) = 0x11D
  /\ calls = [KeyboardInput true 0x01D; CheckFullscreenHotkey]
  /\ ~ In (KeyboardInput true 0x038) calls.
Proof.
  cbv zeta; split; [reflexivity|]. split; [reflexivity|].
  vm_compute; intros [H|[H|[]]]; discriminate.
Qed.

(** C5 (as amended).  On the non-E1 path, with the right-Ctrl-to-left-Alt
    flag enabled, the substitution follows the remap lookup and reads its
    result: the key sent is 0x038 exactly when the code after the lookup is
    0x11D (or already 0x038), and the table is not consulted again.  So a
    code the table remaps to 0x11D is sent as 0x038, while a table entry
    that remaps 0x11D to another code takes effect first and is not
    overridden: its value is what is sent. *)
Theorem rctrl_rule_acts_on_remapped_code
    (csc map : Z -> Z) (len rctrl : Z) (raw : RAWINPUT) (w : World) :
  let rawKB := data_keyboard raw in
  let c := lookup_code csc rawKB in
  let calls := emitted (keyboard_handle csc map len rctrl raw) w in
  has (Flags rawKB) RI_KEY_E1 = false ->
  rctrl <> 0 ->
  calls = key_calls rawKB (if remap map len c =? 0x11D then 0x038
                           else remap map len c)
          ++ [CheckFullscreenHotkey]
  /\ (remap map len c = 0x11D ->
      calls = [KeyboardInput (key_down rawKB) 0x038; CheckFullscreenHotkey])
  /\ (c < len -> map c = 0x11D ->
      calls = [KeyboardInput (key_down rawKB) 0x038; CheckFullscreenHotkey])
  /\ (c = 0x11D -> 0x11D < len -> map 0x11D <> 0x11D ->
      calls = key_calls rawKB (map 0x11D) ++ [CheckFullscreenHotkey]).
Proof.
  intros rawKB c calls HE1 Hflag.
  assert (G : calls
              = key_calls rawKB (if remap map len c =? 0x11D then 0x038
                                 else remap map len c)
                ++ [CheckFullscreenHotkey]).
  { subst calls; rewrite keyboard_handle_emitted; unfold keyboard_calls.
    fold rawKB; rewrite HE1; fold c.
    unfold rctrl_to_lalt, truth.
    destruct (Z.eqb_spec rctrl 0) as [|_]; [contradiction|].
    now rewrite andb_true_r. }
  split; [exact G|]. split; [|split].
  - intros HR; rewrite G, HR; reflexivity.
  - intros Hin Hmap; rewrite G.
    assert (HR : remap map len c = 0x11D).
    { unfold remap. destruct (Z.ltb_spec c len); [|lia].
      destruct (Z.eqb_spec c (map c)); cbn [andb negb]; congruence. }
    rewrite HR; reflexivity.
  - intros Hc Hin Hmap; rewrite G.
    assert (HR : remap map len c = map 0x11D).
    { unfold remap; rewrite Hc.
      destruct (Z.ltb_spec 0x11D len); [|lia].
      destruct (Z.eqb_spec 0x11D (map 0x11D)); cbn [andb negb]; congruence. }
    rewrite HR.
    destruct (Z.eqb_spec (map 0x11D) 0x11D); [contradiction|reflexivity].
Qed.

Lemma rctrl_rule_acts_on_remapped_code_witness :
  let w := initial_World 0 sample_rect in
  (* right Ctrl released, identity table *)
  emitted (keyboard_handle identity_map identity_map 512 1
             (key_report 0x1D (Z.lor RI_KEY_E0 RI_KEY_BREAK))) w
  = [KeyboardInput false 0x038; CheckFullscreenHotkey]
  (* left Ctrl pressed, table remaps it to right Ctrl *)
  /\ emitted (keyboard_handle identity_map lctrl_to_rctrl_map 512 1
                (key_report 0x1D 0)) w
     = [KeyboardInput true 0x038; CheckFullscreenHotkey]
  (* right Ctrl pressed, table remaps it to left Ctrl *)
  /\ emitted (keyboard_handle identity_map rctrl_to_lctrl_map 512 1
                (key_report 0x1D RI_KEY_E0)) w
     = [KeyboardInput true 0x01D; CheckFullscreenHotkey].
Proof.
  intros w; split; [|split].
  - apply (proj1 (proj2 (rctrl_rule_acts_on_remapped_code identity_map
             identity_map 512 1
             (key_report 0x1D (Z.lor RI_KEY_E0 RI_KEY_BREAK)) w
             eq_refl ltac:(discriminate))));
      reflexivity.
  - apply (proj1 (proj2 (proj2 (rctrl_rule_acts_on_remapped_code identity_map
             lctrl_to_rctrl_map 512 1 (key_report 0x1D 0) w
             eq_refl ltac:(discriminate)))));
      [vm_compute|]; reflexivity.
  - apply (proj2 (proj2 (proj2 (rctrl_rule_acts_on_remapped_code identity_map
             rctrl_to_lctrl_map 512 1 (key_report 0x1D RI_KEY_E0) w
             eq_refl ltac:(discriminate)))));
      [reflexivity | vm_compute; reflexivity | vm_compute; discriminate].
Defined.

(** C6.  Malformed or out-of-domain input is dropped silently: an E1 report
    whose make code is not 0x1D changes nothing and makes no call; a keyboard
    report whose resulting scan code is 0xFFFF sends no key (on the E1 path
    nothing at all, on the other path only the hotkey check); a raw report of
    a device type other than keyboard, mouse or HID changes nothing and makes
    no call. *)
Theorem malformed_input_is_dropped
    (csc map : Z -> Z) (len rctrl : Z) (raw : RAWINPUT) (w : World) :
  let rawKB := data_keyboard raw in
  (has (Flags rawKB) RI_KEY_E1 = true -> MakeCode rawKB <> 0x1D ->
   keyboard_handle csc map len rctrl raw w = (tt, w))
  /\ (has (Flags rawKB) RI_KEY_E1 = true -> MakeCode rawKB = 0x1D ->
      map 0x100 = 0xFFFF ->
      keyboard_handle csc map len rctrl raw w = (tt, w))
  /\ (has (Flags rawKB) RI_KEY_E1 = false ->
      rctrl_to_lalt rctrl (remap map len (lookup_code csc rawKB)) = 0xFFFF ->
      emitted (keyboard_handle csc map len rctrl raw) w = [CheckFullscreenHotkey])
  /\ (header_dwType raw <> RIM_TYPEKEYBOARD ->
      header_dwType raw <> RIM_TYPEMOUSE ->
      header_dwType raw <> RIM_TYPEHID ->
      handle_input csc map len rctrl (Some raw) w = (tt, w)).
Proof.
  intros rawKB; repeat split.
  - intros HE1 Hm.
    rewrite keyboard_handle_run; unfold keyboard_calls; fold rawKB.
    rewrite HE1. destruct (Z.eqb_spec (MakeCode rawKB) 0x1D); [contradiction|].
    now rewrite log_nil.
  - intros HE1 Hm Hmap.
    rewrite keyboard_handle_run; unfold keyboard_calls; fold rawKB.
    rewrite HE1, Hm, Hmap. now rewrite log_nil.
  - intros HE1 Hs.
    rewrite keyboard_handle_emitted; unfold keyboard_calls; fold rawKB.
    now rewrite HE1, Hs.
  - intros Hk Hm Hh; unfold handle_input.
    destruct (Z.eqb_spec (header_dwType raw) RIM_TYPEKEYBOARD); [contradiction|].
    destruct (Z.eqb_spec (header_dwType raw) RIM_TYPEMOUSE); [contradiction|].
    destruct (Z.eqb_spec (header_dwType raw) RIM_TYPEHID); [contradiction|].
    reflexivity.
Qed.

Lemma malformed_input_is_dropped_witness :
  let w := initial_World 1 sample_rect in
  keyboard_handle identity_map identity_map 512 0 (key_report 0x45 RI_KEY_E1) w
  = (tt, w)
  /\ keyboard_handle identity_map (fun _ => 0xFFFF) 512 0
       (key_report 0x1D RI_KEY_E1) w = (tt, w)
  /\ emitted (keyboard_handle identity_map (fun _ => 0xFFFF) 512 0
                (key_report 0x1E 0)) w = [CheckFullscreenHotkey]
  /\ handle_input identity_map identity_map 512 0
       (Some (mkRAWINPUT 7 (mkRAWKEYBOARD 0x1E 0) (mkRAWMOUSE 0 1 0 5 5))) w
     = (tt, w).
Proof.
  intros w; split; [|split; [|split]].
  - apply (proj1 (malformed_input_is_dropped identity_map identity_map 512 0
                    (key_report 0x45 RI_KEY_E1) w)).
    + reflexivity.
    + cbn; discriminate.
  - apply (proj1 (proj2 (malformed_input_is_dropped identity_map
                    (fun _ => 0xFFFF) 512 0 (key_report 0x1D RI_KEY_E1) w)));
      reflexivity.
  - apply (proj1 (proj2 (proj2 (malformed_input_is_dropped identity_map
                    (fun _ => 0xFFFF) 512 0 (key_report 0x1E 0) w))));
      reflexivity.
  - apply (proj2 (proj2 (proj2 (malformed_input_is_dropped identity_map
                    identity_map 512 0
                    (mkRAWINPUT 7 (mkRAWKEYBOARD 0x1E 0) (mkRAWMOUSE 0 1 0 5 5))
                    w)))); cbn; discriminate.
Defined.

(** C9.  The fullscreen hotkey check is called exactly once per non-E1
    keyboard report, as the last call, whether or not a key was sent before
    it; it is never called for an E1 report. *)
Theorem fullscreen_hotkey_once_per_non_E1_report
    (csc map : Z -> Z) (len rctrl : Z) (raw : RAWINPUT) (w : World) :
  let rawKB := data_keyboard raw in
  let calls := emitted (keyboard_handle csc map len rctrl raw) w in
  if has (Flags rawKB) RI_KEY_E1
  then filter is_CheckFullscreenHotkey calls = []
  else exists keys,
         calls = keys ++ [CheckFullscreenHotkey]
         /\ filter is_CheckFullscreenHotkey keys = []
         /\ length (filter is_CheckFullscreenHotkey calls) = 1%nat
         /\ (keys = [] \/ exists sc, keys = [KeyboardInput (key_down rawKB) sc]).
Proof.
  intros rawKB calls; subst calls.
  rewrite keyboard_handle_emitted; unfold keyboard_calls; fold rawKB.
  destruct (has (Flags rawKB) RI_KEY_E1).
  - unfold key_calls; destruct (_ =? 0xFFFF); reflexivity.
  - eexists; split; [reflexivity|].
    unfold key_calls; destruct (_ =? 0xFFFF); cbn; repeat split; eauto.
Qed.

(** ** Mouse decoder *)

Lemma to_int_id z : in_int z -> to_int z = z.
Proof.
  unfold in_int, to_int, INT_MIN, INT_MAX; intros H.
  rewrite Z.mod_small; lia.
Qed.

Lemma to_SHORT_to_USHORT n : in_SHORT n -> to_SHORT (to_USHORT n) = n.
Proof.
  unfold in_SHORT, to_SHORT, to_USHORT; intros H.
  rewrite Z.add_mod_idemp_l by lia.
  rewrite Z.mod_small; lia.
Qed.

Lemma midpoint_in_int a b :
  in_int a -> in_int b -> in_int (b - a) ->
  to_int (a + to_int (b - a) ÷ 2) = a + (b - a) ÷ 2.
Proof.
  intros Ha Hb Hd. rewrite (to_int_id (b - a)) by exact Hd.
  apply to_int_id. unfold in_int, INT_MIN, INT_MAX in *.
  Z.to_euclidean_division_equations; lia.
Qed.

Lemma center_spec rect :
  rect_ok rect ->
  center rect
  = (rect_left rect + (rect_right rect - rect_left rect) ÷ 2,
     rect_top rect + (rect_bottom rect - rect_top rect) ÷ 2).
Proof.
  intros (Hl & Hr & Ht & Hb & Hw & Hh); unfold center.
  now rewrite !midpoint_in_int.
Qed.

Lemma mouse_handle_calls_shape raw w :
  let state := data_mouse raw in
  let d := snd (motion_after state (static_x w) (static_y w)) in
  let pre := [MouseSetButtonsEx (buttons_after (usButtonFlags state) (mouse_buttons w))]
             ++ wheel_calls state in
  mouse_handle_calls raw w
  = pre ++ [MouseScale (fst d) (snd d);
            SetCursorPosCall (fst (center (window_rect w)))
                             (snd (center (window_rect w)))]
  /\ filter is_MouseScale pre = []
  /\ filter is_SetCursorPos pre = [].
Proof.
  cbv zeta; unfold mouse_handle_calls, wheel_calls.
  rewrite <- app_assoc.
  destruct (has (usButtonFlags (data_mouse raw)) RI_MOUSE_WHEEL);
    repeat split; reflexivity.
Qed.

Lemma filter_MouseScale_calls raw w :
  filter is_MouseScale (mouse_handle_calls raw w)
  = let d := snd (motion_after (data_mouse raw) (static_x w) (static_y w)) in
    [MouseScale (fst d) (snd d)].
Proof.
  destruct (mouse_handle_calls_shape raw w) as (E & F & _).
  rewrite E, filter_app, F; reflexivity.
Qed.

Lemma run_mouse_statics reports : forall w,
  (static_x (run_mouse reports w), static_y (run_mouse reports w))
  = last_sample reports (static_x w, static_y w).
Proof.
  induction reports as [|raw reports IH]; intros w; [reflexivity|].
  unfold run_mouse, last_sample in *; cbn [fold_left].
  rewrite IH. f_equal.
  unfold exec; rewrite mouse_handle_run; cbn.
  unfold motion_after.
  destruct (has (usFlags (data_mouse raw)) MOUSE_MOVE_ABSOLUTE); reflexivity.
Qed.

(** C1 (as stated) fails in its "still decoded" part.  With capture off an
    absolute mouse report is not decoded: the last-sample static keeps its
    old value, where decoding the report would have stored the sample. *)
Lemma capture_off_report_not_decoded :
  let w := initial_World 0 sample_rect in
  let raw := mouse_report MOUSE_MOVE_ABSOLUTE 0 0 1000 1000 in
  header_dwType raw = RIM_TYPEMOUSE
  /\ mouse_capture w = 0
  /\ static_x (exec (handle_input identity_map identity_map 512 0 (Some raw)) w)
     <> static_x (exec (mouse_handle raw) w).
Proof.
  cbv zeta; split; [reflexivity|]. split; [reflexivity|].
  vm_compute; discriminate.
Qed.

(** C1 (as amended).  A mouse report that arrives while [mouse_capture] is
    zero is not decoded at all: no call is made and nothing changes, neither
    the emulated button mask nor the decoder's statics.  A keyboard report
    is handled by [keyboard_handle] whatever the capture flag is. *)
Theorem capture_off_drops_mouse_report
    (csc map : Z -> Z) (len rctrl : Z) (raw : RAWINPUT) (w : World) :
  (header_dwType raw = RIM_TYPEMOUSE -> mouse_capture w = 0 ->
   handle_input csc map len rctrl (Some raw) w = (tt, w)
   /\ emitted (handle_input csc map len rctrl (Some raw)) w = [])
  /\ (header_dwType raw = RIM_TYPEKEYBOARD ->
      forall c,
        handle_input csc map len rctrl (Some raw) (with_mouse_capture c w)
        = keyboard_handle csc map len rctrl raw (with_mouse_capture c w)
        /\ emitted (handle_input csc map len rctrl (Some raw))
                   (with_mouse_capture c w)
           = emitted (keyboard_handle csc map len rctrl raw) w).
Proof.
  split.
  - intros Ht Hc.
    assert (E : handle_input csc map len rctrl (Some raw) w = (tt, w)).
    { unfold handle_input.
      rewrite Ht; cbn [Z.eqb RIM_TYPEMOUSE RIM_TYPEKEYBOARD].
      unfold bind, get_mouse_capture; rewrite Hc; reflexivity. }
    split; [exact E|].
    apply (emitted_log _ tt); rewrite log_nil; exact E.
  - intros Ht c; unfold handle_input.
    rewrite Ht; cbn [Z.eqb RIM_TYPEKEYBOARD Pos.eqb].
    split; [reflexivity|].
    now rewrite !keyboard_handle_emitted.
Qed.

Lemma capture_off_drops_mouse_report_witness :
  let w := initial_World 0 sample_rect in
  (handle_input identity_map identity_map 512 0
     (Some (mouse_report MOUSE_MOVE_ABSOLUTE RI_MOUSE_LEFT_BUTTON_DOWN 0 1000 1000)) w
   = (tt, w)
   /\ emitted (handle_input identity_map identity_map 512 0
       (Some (mouse_report MOUSE_MOVE_ABSOLUTE RI_MOUSE_LEFT_BUTTON_DOWN 0 1000 1000)))
       w = [])
  /\ emitted (handle_input identity_map identity_map 512 0
                (Some (key_report 0x1E 0))) (with_mouse_capture 0 w)
     = emitted (keyboard_handle identity_map identity_map 512 0
                  (key_report 0x1E 0)) w.
Proof.
  intros w; split.
  - apply (proj1 (capture_off_drops_mouse_report identity_map identity_map 512 0
             (mouse_report MOUSE_MOVE_ABSOLUTE RI_MOUSE_LEFT_BUTTON_DOWN 0 1000 1000)
             w)); reflexivity.
  - apply (proj2 (capture_off_drops_mouse_report identity_map identity_map 512 0
             (key_report 0x1E 0) w)); reflexivity.
Defined.

(** C2 (as stated) fails.  A relative-mode report recenters the host cursor
    too. *)
Lemma relative_report_recenters :
  let raw := mouse_report 0 0 0 3 (-4) in
  let calls := emitted (mouse_handle raw) (initial_World 1 sample_rect) in
  has (usFlags (data_mouse raw)) MOUSE_MOVE_ABSOLUTE = false
  /\ calls = [MouseSetButtonsEx 0; MouseScale 3 (-4); SetCursorPosCall 500 350]
  /\ filter is_SetCursorPos calls <> [].
Proof.
  cbv zeta; split; [reflexivity|]. split; [reflexivity|].
  vm_compute; discriminate.
Qed.

(** C2 (as amended).  Every mouse report handled by [mouse_handle], absolute
    or relative, moves the host cursor exactly once, as the last call and
    right after the motion was handed to [mouse_scale], to the centre of the
    window rectangle: (left + (right - left) / 2, top + (bottom - top) / 2). *)
Theorem recenter_once_per_mouse_report (raw : RAWINPUT) (w : World) :
  let rect := window_rect w in
  let calls := emitted (mouse_handle raw) w in
  rect_ok rect ->
  exists pre dx dy,
    calls
    = pre ++ [MouseScale dx dy;
              SetCursorPosCall
                (rect_left rect + (rect_right rect - rect_left rect) ÷ 2)
                (rect_top rect + (rect_bottom rect - rect_top rect) ÷ 2)]
    /\ filter is_SetCursorPos pre = []
    /\ filter is_MouseScale pre = []
    /\ length (filter is_SetCursorPos calls) = 1%nat.
Proof.
  intros rect calls Hr; subst calls.
  rewrite mouse_handle_emitted.
  destruct (mouse_handle_calls_shape raw w) as (E & FS & FC).
  rewrite E; fold rect; rewrite (center_spec rect Hr); cbn [fst snd].
  do 3 eexists; split; [reflexivity|].
  split; [exact FC|]. split; [exact FS|].
  rewrite filter_app, FC; reflexivity.
Qed.

Lemma recenter_once_per_mouse_report_witness :
  exists pre dx dy,
    emitted (mouse_handle (mouse_report 0 0 0 3 (-4))) (initial_World 1 sample_rect)
    = pre ++ [MouseScale dx dy; SetCursorPosCall 500 350]
    /\ filter is_SetCursorPos pre = []
    /\ filter is_MouseScale pre = []
    /\ length (filter is_SetCursorPos
                 (emitted (mouse_handle (mouse_report 0 0 0 3 (-4)))
                          (initial_World 1 sample_rect))) = 1%nat.
Proof.
  apply (recenter_once_per_mouse_report (mouse_report 0 0 0 3 (-4))
           (initial_World 1 sample_rect)).
  unfold rect_ok, in_int, INT_MIN, INT_MAX; cbn; lia.
Defined.

(** C3 (as stated) fails.  The last-sample statics start at zero, not at the
    first sample: the first absolute report, at (1000, 1000), yields the
    delta (40, 40). *)
Lemma first_absolute_report_delta_nonzero :
  let w := initial_World 1 sample_rect in
  let raw := mouse_report MOUSE_MOVE_ABSOLUTE 0 0 1000 1000 in
  (static_x w, static_y w) = (0, 0)
  /\ filter is_MouseScale (emitted (mouse_handle raw) w) = [MouseScale 40 40]
  /\ filter is_MouseScale (emitted (mouse_handle raw) w) <> [MouseScale 0 0].
Proof.
  cbv zeta; split; [reflexivity|]. split; [reflexivity|].
  vm_compute; discriminate.
Qed.

(** C3 (as amended).  The last-sample statics are zero before the first
    report; after any sequence of handled mouse reports they hold the
    coordinates of the most recent absolute report (still (0, 0) when there
    was none), and the delta of the next absolute report is taken against
    them. *)
Theorem last_sample_tracks_absolute_reports
    (capture : Z) (rect : RECT) (reports : list RAWINPUT) (raw : RAWINPUT) :
  let w := run_mouse reports (initial_World capture rect) in
  let prev := last_sample reports (0, 0) in
  let state := data_mouse raw in
  (static_x w, static_y w) = prev
  /\ (has (usFlags state) MOUSE_MOVE_ABSOLUTE = true ->
      filter is_MouseScale (emitted (mouse_handle raw) w)
      = [MouseScale (to_int (lLastX state - fst prev) ÷ 25)
                    (to_int (lLastY state - snd prev) ÷ 25)]
      /\ (static_x (exec (mouse_handle raw) w), static_y (exec (mouse_handle raw) w))
         = (lLastX state, lLastY state)).
Proof.
  intros w prev state.
  assert (S : (static_x w, static_y w) = prev)
    by (subst w prev; apply run_mouse_statics).
  split; [exact S|]. intros Habs.
  clearbody w prev; subst prev state.
  rewrite mouse_handle_emitted, filter_MouseScale_calls.
  unfold exec; rewrite mouse_handle_run.
  unfold motion_after; rewrite Habs; split; reflexivity.
Qed.

Lemma last_sample_tracks_absolute_reports_witness :
  let seen := [mouse_report MOUSE_MOVE_ABSOLUTE 0 0 1000 1000;
               mouse_report 0 0 0 3 (-4)] in
  let w := run_mouse seen (initial_World 1 sample_rect) in
  (static_x w, static_y w) = (1000, 1000)
  /\ filter is_MouseScale
       (emitted (mouse_handle (mouse_report MOUSE_MOVE_ABSOLUTE 0 0 1050 975)) w)
     = [MouseScale 2 (-1)].
Proof.
  intros seen w.
  pose proof (last_sample_tracks_absolute_reports 1 sample_rect seen
                (mouse_report MOUSE_MOVE_ABSOLUTE 0 0 1050 975)) as (S & N).
  split; [exact S|].
  exact (proj1 (N eq_refl)).
Defined.

(** C7.  When the wheel flag is set, the wheel delta is the signed notch
    value (the SHORT stored in [usButtonData]) divided by 120, truncating,
    and it is handed to [mouse_set_z] within the same report, right after
    the buttons; when the flag is unset the wheel delta of the report is 0,
    whatever [usButtonData] holds, and [mouse_set_z] is not called. *)
Theorem wheel_delta_is_notches_div_120 (raw : RAWINPUT) (w : World) :
  let state := data_mouse raw in
  let w' := exec (mouse_handle raw) w in
  let calls := emitted (mouse_handle raw) w in
  (has (usButtonFlags state) RI_MOUSE_WHEEL = true ->
   forall n, in_SHORT n -> usButtonData state = to_USHORT n ->
     static_delta_z w' = n ÷ 120
     /\ exists b dx dy X Y,
          calls = [MouseSetButtonsEx b; MouseSetZ (n ÷ 120);
                   MouseScale dx dy; SetCursorPosCall X Y])
  /\ (has (usButtonFlags state) RI_MOUSE_WHEEL = false ->
      static_delta_z w' = 0 /\ filter is_MouseSetZ calls = []).
Proof.
  intros state w' calls; subst w' calls.
  rewrite mouse_handle_emitted; unfold exec; rewrite mouse_handle_run.
  cbn [snd static_delta_z]; unfold mouse_handle_calls, wheel_after, wheel_calls.
  fold state; split.
  - intros Hw n Hn Hd; rewrite Hw, Hd, to_SHORT_to_USHORT by exact Hn.
    split; [reflexivity|]. do 5 eexists; reflexivity.
  - intros Hw; rewrite Hw; split; reflexivity.
Qed.

Lemma wheel_delta_is_notches_div_120_witness :
  let w := initial_World 1 sample_rect in
  let up2 := mouse_report 0 RI_MOUSE_WHEEL 240 0 0 in
  let down1 := mouse_report 0 RI_MOUSE_WHEEL 0xFF88 0 0 in
  let none := mouse_report 0 0 240 0 0 in
  (static_delta_z (exec (mouse_handle up2) w) = 2
   /\ filter is_MouseSetZ (emitted (mouse_handle up2) w) = [MouseSetZ 2])
  /\ (static_delta_z (exec (mouse_handle down1) w) = -1
      /\ filter is_MouseSetZ (emitted (mouse_handle down1) w) = [MouseSetZ (-1)])
  /\ (static_delta_z (exec (mouse_handle none) w) = 0
      /\ filter is_MouseSetZ (emitted (mouse_handle none) w) = []).
Proof.
  intros w up2 down1 none.
  split; [|split].
  - destruct (proj1 (wheel_delta_is_notches_div_120 up2 w) eq_refl 240)
      as (Z1 & b & dx & dy & X & Y & E).
    + unfold in_SHORT; lia.
    + reflexivity.
    + split; [exact Z1|]. rewrite E; reflexivity.
  - destruct (proj1 (wheel_delta_is_notches_div_120 down1 w) eq_refl (-120))
      as (Z1 & b & dx & dy & X & Y & E).
    + unfold in_SHORT; lia.
    + reflexivity.
    + split; [exact Z1|]. rewrite E; reflexivity.
  - exact (proj2 (wheel_delta_is_notches_div_120 none w) eq_refl).
Defined.

(** C8.  For an absolute-mode report, with the difference to the previous
    sample representable as an [int], dx = (x - previous x) / 25 and
    dy = (y - previous y) / 25, truncating toward zero, and the previous
    sample becomes the report's coordinates; for a relative-mode report dx
    and dy are the raw x and y, and the previous sample stays. *)
Theorem motion_deltas (raw : RAWINPUT) (w : World) :
  let state := data_mouse raw in
  let w' := exec (mouse_handle raw) w in
  let calls := emitted (mouse_handle raw) w in
  (has (usFlags state) MOUSE_MOVE_ABSOLUTE = true ->
   in_int (lLastX state - static_x w) ->
   in_int (lLastY state - static_y w) ->
   filter is_MouseScale calls
   = [MouseScale ((lLastX state - static_x w) ÷ 25)
                 ((lLastY state - static_y w) ÷ 25)]
   /\ static_x w' = lLastX state /\ static_y w' = lLastY state)
  /\ (has (usFlags state) MOUSE_MOVE_ABSOLUTE = false ->
      filter is_MouseScale calls = [MouseScale (lLastX state) (lLastY state)]
      /\ static_x w' = static_x w /\ static_y w' = static_y w).
Proof.
  intros state w' calls; subst w' calls.
  rewrite mouse_handle_emitted, filter_MouseScale_calls.
  unfold exec; rewrite mouse_handle_run.
  fold state; unfold motion_after; split.
  - intros Ha Hx Hy; rewrite Ha; cbn.
    rewrite !to_int_id by assumption. repeat split.
  - intros Ha; rewrite Ha; repeat split.
Qed.

Lemma motion_deltas_witness :
  let w := exec (mouse_handle (mouse_report MOUSE_MOVE_ABSOLUTE 0 0 1000 1000))
                (initial_World 1 sample_rect) in
  (static_x w, static_y w) = (1000, 1000)
  /\ filter is_MouseScale
       (emitted (mouse_handle (mouse_report MOUSE_MOVE_ABSOLUTE 0 0 1050 975)) w)
     = [MouseScale 2 (-1)]
  /\ filter is_MouseScale (emitted (mouse_handle (mouse_report 0 0 0 7 (-9))) w)
     = [MouseScale 7 (-9)].
Proof.
  intros w; split; [reflexivity|]. split.
  - refine (proj1 (proj1 (motion_deltas
              (mouse_report MOUSE_MOVE_ABSOLUTE 0 0 1050 975) w) eq_refl _ _));
      unfold in_int, INT_MIN, INT_MAX; cbn; lia.
  - exact (proj1 (proj2 (motion_deltas (mouse_report 0 0 0 7 (-9)) w) eq_refl)).
Defined.

(** ** Button mask *)

Lemma button_val_down flags down up bit b :
  has flags down = true ->
  Z.land (button_val flags down up bit b) bit = bit.
Proof.
  intros H; unfold button_val; rewrite H.
  rewrite Z.land_lor_distr_l, Z.land_diag.
  apply Z.bits_inj'; intros n _.
  rewrite Z.lor_spec, Z.land_spec.
  destruct (Z.testbit bit n), (Z.testbit b n); reflexivity.
Qed.

(** A later button leaves a bit [m] that is set alone when its own bit is
    another one. *)
Lemma button_val_keeps flags down up bit m b :
  Z.land bit m = 0 ->
  Z.land b m = m ->
  Z.land (button_val flags down up bit b) m = m.
Proof.
  intros D H; unfold button_val.
  destruct (has flags down); [|destruct (has flags up)]; [| |exact H].
  - now rewrite Z.land_lor_distr_l, H, D, Z.lor_0_r.
  - apply Z.bits_inj'; intros n Hn.
    apply (f_equal (fun z => Z.testbit z n)) in D, H.
    rewrite Z.land_spec, Z.bits_0 in D.
    rewrite Z.land_spec in H.
    rewrite !Z.land_spec, Z.lnot_spec by lia.
    destruct (Z.testbit bit n), (Z.testbit b n), (Z.testbit m n);
      cbn in *; congruence.
Qed.

(** Clearing one flag of [flags] leaves the test of any other flag as it
    was. *)
Lemma has_clear_other flags up c :
  Z.land (Z.lnot up) c = c ->
  has (Z.land flags (Z.lnot up)) c = has flags c.
Proof. intros H; unfold has; now rewrite <- Z.land_assoc, H. Qed.

Lemma mouse_handle_buttons raw w :
  mouse_buttons (exec (mouse_handle raw) w)
  = buttons_after (usButtonFlags (data_mouse raw)) (mouse_buttons w).
Proof. unfold exec; rewrite mouse_handle_run; reflexivity. Qed.

Ltac clear_other_flag c :=
  rewrite ?(has_clear_other _ _ c) by reflexivity.

Ltac clear_other_flags :=
  clear_other_flag RI_MOUSE_LEFT_BUTTON_DOWN;
  clear_other_flag RI_MOUSE_LEFT_BUTTON_UP;
  clear_other_flag RI_MOUSE_MIDDLE_BUTTON_DOWN;
  clear_other_flag RI_MOUSE_MIDDLE_BUTTON_UP;
  clear_other_flag RI_MOUSE_RIGHT_BUTTON_DOWN;
  clear_other_flag RI_MOUSE_RIGHT_BUTTON_UP;
  clear_other_flag RI_MOUSE_BUTTON_4_DOWN;
  clear_other_flag RI_MOUSE_BUTTON_4_UP;
  clear_other_flag RI_MOUSE_BUTTON_5_DOWN;
  clear_other_flag RI_MOUSE_BUTTON_5_UP.

(** C10.  When a report carries both the DOWN and the UP flag of one of the
    five buttons, DOWN wins: the button's bit is set in the mask written to
    the emulated mouse, and the mask is the one the report would give with
    that UP flag cleared. *)
Theorem down_flag_wins_over_up (raw : RAWINPUT) (w : World) (down up bit : Z) :
  let flags := usButtonFlags (data_mouse raw) in
  let b' := mouse_buttons (exec (mouse_handle raw) w) in
  In (down, up, bit) button_flags ->
  has flags down = true ->
  has flags up = true ->
  Z.land b' bit = bit
  /\ In (MouseSetButtonsEx b') (emitted (mouse_handle raw) w)
  /\ b' = mouse_buttons
            (exec (mouse_handle (with_button_flags (Z.land flags (Z.lnot up)) raw)) w).
Proof.
  intros flags b' Hin Hd Hu; subst b'.
  rewrite !mouse_handle_buttons, mouse_handle_emitted.
  cbn [with_button_flags data_mouse usButtonFlags]; fold flags.
  split; [|split].
  - unfold buttons_after.
    cbn [In button_flags] in Hin.
    repeat (destruct Hin as [Hin|Hin];
            [ inversion Hin; subst down up bit; clear Hin;
              repeat (apply button_val_keeps; [reflexivity|]);
              apply button_val_down; exact Hd | ]).
    contradiction.
  - left; reflexivity.
  - unfold buttons_after, button_val.
    cbn [In button_flags] in Hin.
    repeat (destruct Hin as [Hin|Hin];
            [ inversion Hin; subst down up bit; clear Hin;
              clear_other_flags; rewrite Hd; reflexivity | ]).
    contradiction.
Qed.

Lemma down_flag_wins_over_up_witness :
  let raw := mouse_report 0 (Z.lor RI_MOUSE_RIGHT_BUTTON_DOWN RI_MOUSE_RIGHT_BUTTON_UP)
               0 0 0 in
  let w := initial_World 1 sample_rect in
  Z.land (mouse_buttons (exec (mouse_handle raw) w)) 2 = 2
  /\ In (MouseSetButtonsEx (mouse_buttons (exec (mouse_handle raw) w)))
        (emitted (mouse_handle raw) w)
  /\ mouse_buttons (exec (mouse_handle raw) w)
     = mouse_buttons
         (exec (mouse_handle (mouse_report 0 RI_MOUSE_RIGHT_BUTTON_DOWN 0 0 0)) w).
Proof.
  intros raw w.
  apply (down_flag_wins_over_up raw w
           RI_MOUSE_RIGHT_BUTTON_DOWN RI_MOUSE_RIGHT_BUTTON_UP 2).
  - cbn; auto.
  - reflexivity.
  - reflexivity.
Defined.

(** ** Further properties of the keyboard decoder *)

Lemma remap_spec map len c :
  remap map len c = if c <? len then map c else c.
Proof.
  unfold remap.
  destruct (c <? len); cbn [andb]; [|reflexivity].
  destruct (Z.eqb_spec c (map c)) as [E|_]; cbn [negb]; [exact E|reflexivity].
Qed.

Lemma has_lor_other flags m c :
  Z.land m c = 0 -> has (Z.lor flags m) c = has flags c.
Proof.
  intros H; unfold has; now rewrite Z.land_lor_distr_l, H, Z.lor_0_r.
Qed.

Lemma has_false_land flags c : has flags c = false -> Z.land flags c = 0.
Proof.
  unfold has, truth; intros H.
  destruct (Z.eqb_spec (Z.land flags c) 0); [assumption|discriminate].
Qed.

(** X1.  On the non-E1 path the remap step is a bounds-checked table read:
    a code below the table's length is replaced by its entry, any other code
    passes unchanged; so a code whose entry is itself, and a code past the
    end of the table, are sent as they are. *)
Theorem remap_is_bounds_checked_lookup
    (csc map : Z -> Z) (len rctrl : Z) (raw : RAWINPUT) (w : World) :
  let rawKB := data_keyboard raw in
  let c := lookup_code csc rawKB in
  has (Flags rawKB) RI_KEY_E1 = false ->
  emitted (keyboard_handle csc map len rctrl raw) w
  = key_calls rawKB (rctrl_to_lalt rctrl (if c <? len then map c else c))
    ++ [CheckFullscreenHotkey]
  /\ (len <= c \/ map c = c ->
      emitted (keyboard_handle csc map len rctrl raw) w
      = key_calls rawKB (rctrl_to_lalt rctrl c) ++ [CheckFullscreenHotkey]).
Proof.
  intros rawKB c HE1.
  rewrite keyboard_handle_emitted; unfold keyboard_calls.
  fold rawKB; rewrite HE1; fold c; rewrite remap_spec.
  split; [reflexivity|].
  intros [Hout|Hid].
  - destruct (Z.ltb_spec c len); [lia|reflexivity].
  - rewrite Hid; destruct (c <? len); reflexivity.
Qed.

Lemma remap_is_bounds_checked_lookup_witness :
  let w := initial_World 0 sample_rect in
  emitted (keyboard_handle identity_map (fun c => c + 1) 0x100 0
             (key_report 0x1E 0)) w
  = [KeyboardInput true 0x1F; CheckFullscreenHotkey]
  /\ emitted (keyboard_handle identity_map (fun c => c + 1) 0x100 0
                (key_report 0x1E RI_KEY_E0)) w
     = [KeyboardInput true 0x11E; CheckFullscreenHotkey].
Proof.
  intros w; split.
  - exact (proj1 (remap_is_bounds_checked_lookup identity_map (fun c => c + 1)
                    0x100 0 (key_report 0x1E 0) w eq_refl)).
  - apply (proj2 (remap_is_bounds_checked_lookup identity_map (fun c => c + 1)
                    0x100 0 (key_report 0x1E RI_KEY_E0) w eq_refl)).
    left; vm_compute; discriminate.
Defined.

(** X2.  An E1 report depends on nothing but its make code, its break flag
    and the table's slot 0x100: E1 1D sends that slot's value unless it is
    0xFFFF, any other E1 report sends nothing.  The scan code conversion,
    the table's length, the E0 flag and the right-Ctrl rule play no part,
    even when slot 0x100 holds 0x11D. *)
Theorem E1_report_sends_slot_0x100
    (csc map : Z -> Z) (len rctrl : Z) (raw : RAWINPUT) (w : World) :
  let rawKB := data_keyboard raw in
  has (Flags rawKB) RI_KEY_E1 = true ->
  emitted (keyboard_handle csc map len rctrl raw) w
  = if (MakeCode rawKB =? 0x1D) && negb (map 0x100 =? 0xFFFF)
    then [KeyboardInput (key_down rawKB) (map 0x100)]
    else [].
Proof.
  intros rawKB HE1.
  rewrite keyboard_handle_emitted; unfold keyboard_calls, key_calls.
  fold rawKB; rewrite HE1.
  destruct (MakeCode rawKB =? 0x1D); cbn [andb]; [|reflexivity].
  destruct (map 0x100 =? 0xFFFF); reflexivity.
Qed.

Lemma E1_report_sends_slot_0x100_witness :
  emitted (keyboard_handle identity_map (fun _ => 0x11D) 512 1
             (key_report 0x1D (Z.lor RI_KEY_E1 RI_KEY_E0)))
          (initial_World 0 sample_rect)
  = [KeyboardInput true 0x11D].
Proof.
  exact (E1_report_sends_slot_0x100 identity_map (fun _ => 0x11D) 512 1
           (key_report 0x1D (Z.lor RI_KEY_E1 RI_KEY_E0))
           (initial_World 0 sample_rect) eq_refl).
Defined.

(** X3.  The break flag changes nothing but the direction of the key: the
    report with RI_KEY_BREAK added makes the calls of the report without it,
    with the key going up instead of down. *)
Theorem break_flag_only_flips_direction
    (csc map : Z -> Z) (len rctrl : Z) (raw : RAWINPUT) (w : World) :
  let flags := Flags (data_keyboard raw) in
  has flags RI_KEY_BREAK = false ->
  emitted (keyboard_handle csc map len rctrl
             (with_key_flags (Z.lor flags RI_KEY_BREAK) raw)) w
  = List.map release (emitted (keyboard_handle csc map len rctrl raw) w)
  /\ forall d sc,
       In (KeyboardInput d sc) (emitted (keyboard_handle csc map len rctrl raw) w) ->
       d = true.
Proof.
  intros flags Hb.
  rewrite !keyboard_handle_emitted; unfold keyboard_calls.
  cbn [with_key_flags data_keyboard Flags MakeCode]; fold flags.
  rewrite (has_lor_other flags RI_KEY_BREAK RI_KEY_E1) by reflexivity.
  assert (L : lookup_code csc
                (mkRAWKEYBOARD (MakeCode (data_keyboard raw))
                               (Z.lor flags RI_KEY_BREAK))
              = lookup_code csc (data_keyboard raw)).
  { unfold lookup_code, prefixed_code; cbn [Flags MakeCode]; fold flags.
    now rewrite (has_lor_other flags RI_KEY_BREAK RI_KEY_E0) by reflexivity. }
  rewrite L; clear L.
  assert (U : forall sc,
             key_calls (mkRAWKEYBOARD (MakeCode (data_keyboard raw))
                                      (Z.lor flags RI_KEY_BREAK)) sc
             = List.map release (key_calls (data_keyboard raw) sc)).
  { intros sc; unfold key_calls, key_down; cbn [Flags]; fold flags.
    destruct (sc =? 0xFFFF); [reflexivity|].
    cbn [List.map release]; do 2 f_equal.
    unfold has at 1; rewrite Z.land_lor_distr_l, (has_false_land _ _ Hb).
    reflexivity. }
  assert (D : forall d sc sc',
             In (KeyboardInput d sc) (key_calls (data_keyboard raw) sc') ->
             d = true).
  { intros d sc sc'; unfold key_calls, key_down; fold flags; rewrite Hb.
    destruct (sc' =? 0xFFFF); cbn; [tauto|].
    intros [E|[]]; now inversion E. }
  destruct (has flags RI_KEY_E1).
  - split; [apply U|]. intros d sc; apply D.
  - rewrite map_app, U; split; [reflexivity|].
    intros d sc Hin; apply in_app_or in Hin as [Hin|[Hin|[]]];
      [eapply D; eassumption|discriminate].
Qed.

Lemma break_flag_only_flips_direction_witness :
  let w := initial_World 0 sample_rect in
  emitted (keyboard_handle identity_map identity_map 512 0
             (key_report 0x1E RI_KEY_BREAK)) w
  = List.map release (emitted (keyboard_handle identity_map identity_map 512 0
                            (key_report 0x1E 0)) w).
Proof.
  intros w.
  exact (proj1 (break_flag_only_flips_direction identity_map identity_map 512 0
                  (key_report 0x1E 0) w eq_refl)).
Defined.

(** X4.  A keyboard report sends at most one key, and never the scan code
    0xFFFF. *)
Theorem at_most_one_key_never_sentinel
    (csc map : Z -> Z) (len rctrl : Z) (raw : RAWINPUT) (w : World) :
  let keys := filter is_KeyboardInput
                (emitted (keyboard_handle csc map len rctrl raw) w) in
  keys = []
  \/ exists sc, sc <> 0xFFFF
                /\ keys = [KeyboardInput (key_down (data_keyboard raw)) sc].
Proof.
  cbv zeta; rewrite keyboard_handle_emitted; unfold keyboard_calls.
  assert (K : forall sc,
             let keys := filter is_KeyboardInput (key_calls (data_keyboard raw) sc) in
             keys = key_calls (data_keyboard raw) sc
             /\ (keys = []
                 \/ exists sc', sc' <> 0xFFFF
                    /\ keys = [KeyboardInput (key_down (data_keyboard raw)) sc'])).
  { intros sc; unfold key_calls.
    destruct (Z.eqb_spec sc 0xFFFF); cbn; split; auto.
    right; exists sc; auto. }
  destruct (has (Flags (data_keyboard raw)) RI_KEY_E1).
  - apply K.
  - rewrite filter_app; cbn [filter is_KeyboardInput]; rewrite app_nil_r.
    apply K.
Qed.

(** X5.  With the right-Ctrl-to-left-Alt flag enabled, no report on the
    non-E1 path ever sends 0x11D. *)
Theorem rctrl_never_sent_when_mapped
    (csc map : Z -> Z) (len rctrl : Z) (raw : RAWINPUT) (w : World) (d : bool) :
  has (Flags (data_keyboard raw)) RI_KEY_E1 = false ->
  rctrl <> 0 ->
  ~ In (KeyboardInput d 0x11D) (emitted (keyboard_handle csc map len rctrl raw) w).
Proof.
  intros HE1 Hflag.
  rewrite keyboard_handle_emitted; unfold keyboard_calls; rewrite HE1.
  set (c := remap map len (lookup_code csc (data_keyboard raw))).
  intros Hin; apply in_app_or in Hin as [Hin|[Hin|[]]]; [|discriminate].
  unfold key_calls in Hin.
  destruct (rctrl_to_lalt rctrl c =? 0xFFFF); [contradiction|].
  destruct Hin as [E|[]]; injection E as _ S.
  unfold rctrl_to_lalt, truth in S.
  destruct (Z.eqb_spec rctrl 0); [contradiction|].
  destruct (Z.eqb_spec c 0x11d); cbn in S; [discriminate|congruence].
Qed.

Lemma rctrl_never_sent_when_mapped_witness :
  ~ In (KeyboardInput true 0x11D)
       (emitted (keyboard_handle identity_map identity_map 512 1
                   (key_report 0x1D RI_KEY_E0)) (initial_World 0 sample_rect)).
Proof.
  apply (rctrl_never_sent_when_mapped identity_map identity_map 512 1
           (key_report 0x1D RI_KEY_E0)).
  - reflexivity.
  - discriminate.
Defined.

(** ** Traces and results of unit actions *)

Lemma mouse_handle_trace raw w :
  trace (exec (mouse_handle raw) w) = trace w ++ mouse_handle_calls raw w.
Proof. unfold exec; rewrite mouse_handle_run; reflexivity. Qed.

Lemma exec_unit (m : M unit) w : m w = (tt, exec m w).
Proof. unfold exec; destruct (m w) as [[] w']; reflexivity. Qed.

(** ** Further properties of the mouse decoder *)

Lemma button_val_other flags down up bit m b :
  Z.land bit m = 0 ->
  Z.land (Z.lnot bit) m = m ->
  Z.land (button_val flags down up bit b) m = Z.land b m.
Proof.
  intros D N; unfold button_val.
  destruct (has flags down); [|destruct (has flags up)]; [| |reflexivity].
  - now rewrite Z.land_lor_distr_l, D, Z.lor_0_r.
  - now rewrite <- Z.land_assoc, N.
Qed.

Lemma button_val_own flags down up bit b :
  Z.land (button_val flags down up bit b) bit
  = if has flags down then bit else if has flags up then 0 else Z.land b bit.
Proof.
  unfold button_val.
  destruct (has flags down); [|destruct (has flags up)]; [| |reflexivity].
  - rewrite Z.land_lor_distr_l, Z.land_diag.
    apply Z.bits_inj'; intros n _.
    rewrite Z.lor_spec, Z.land_spec.
    destruct (Z.testbit bit n), (Z.testbit b n); reflexivity.
  - now rewrite <- Z.land_assoc, (Z.land_comm (Z.lnot bit)),
      Z.land_lnot_diag, Z.land_0_r.
Qed.

Lemma button_val_high flags down up bit b :
  Z.shiftr bit 5 = 0 ->
  Z.shiftr (Z.lnot bit) 5 = -1 ->
  Z.shiftr (button_val flags down up bit b) 5 = Z.shiftr b 5.
Proof.
  intros H N; unfold button_val.
  destruct (has flags down); [|destruct (has flags up)]; [| |reflexivity].
  - now rewrite Z.shiftr_lor, H, Z.lor_0_r.
  - now rewrite Z.shiftr_land, N, Z.land_m1_r.
Qed.

Lemma button_val_nonneg flags down up bit b :
  0 <= bit -> 0 <= b -> 0 <= button_val flags down up bit b.
Proof.
  intros Hbit Hb; unfold button_val.
  destruct (has flags down); [|destruct (has flags up)]; [| |exact Hb].
  - apply Z.lor_nonneg; split; assumption.
  - apply Z.land_nonneg; left; exact Hb.
Qed.

Lemma buttons_after_high flags b :
  Z.shiftr (buttons_after flags b) 5 = Z.shiftr b 5.
Proof.
  unfold buttons_after.
  now rewrite !button_val_high by reflexivity.
Qed.

Lemma lor_then_clear b bit :
  Z.land b bit = 0 -> Z.land (Z.lor b bit) (Z.lnot bit) = b.
Proof.
  intros H; apply Z.bits_inj'; intros n Hn.
  apply (f_equal (fun z => Z.testbit z n)) in H.
  rewrite Z.land_spec, Z.bits_0 in H.
  rewrite Z.land_spec, Z.lor_spec, Z.lnot_spec by exact Hn.
  destruct (Z.testbit b n), (Z.testbit bit n); cbn in *; congruence.
Qed.

(** Evaluate the flag tests made on a constant flag word. *)
Ltac eval_flag_tests :=
  repeat match goal with
         | |- context [has ?a ?c] =>
             let v := eval vm_compute in (has a c) in
             change (has a c) with v
         end;
  cbv iota.

(** X7.  What a report does to the button mask, bit by bit: for each of the
    five buttons, DOWN sets the button's bit, otherwise UP clears it,
    otherwise the bit stays as the emulated mouse had it, whatever the other
    flags and bits are; the bits above the fifth are never touched. *)
Theorem button_mask_bit_by_bit (raw : RAWINPUT) (w : World) (down up bit : Z) :
  let flags := usButtonFlags (data_mouse raw) in
  let b := mouse_buttons w in
  let b' := mouse_buttons (exec (mouse_handle raw) w) in
  In (down, up, bit) button_flags ->
  Z.land b' bit
  = (if has flags down then bit else if has flags up then 0 else Z.land b bit)
  /\ Z.shiftr b' 5 = Z.shiftr b 5.
Proof.
  intros flags b b' Hin; subst b'.
  rewrite mouse_handle_buttons; fold flags b.
  split; [|apply buttons_after_high].
  unfold buttons_after.
  cbn [In button_flags] in Hin.
  repeat (destruct Hin as [Hin|Hin];
          [ inversion Hin; subst down up bit; clear Hin;
            repeat (rewrite button_val_other by reflexivity);
            rewrite button_val_own;
            repeat (rewrite button_val_other by reflexivity);
            reflexivity | ]).
  contradiction.
Qed.

Lemma button_mask_bit_by_bit_witness :
  let w := exec (mouse_handle (mouse_report 0 RI_MOUSE_LEFT_BUTTON_DOWN 0 0 0))
                (initial_World 1 sample_rect) in
  let raw := mouse_report 0 RI_MOUSE_RIGHT_BUTTON_DOWN 0 0 0 in
  Z.land (mouse_buttons (exec (mouse_handle raw) w)) 1 = 1
  /\ Z.land (mouse_buttons (exec (mouse_handle raw) w)) 2 = 2.
Proof.
  intros w raw; split.
  - apply (proj1 (button_mask_bit_by_bit raw w
             RI_MOUSE_LEFT_BUTTON_DOWN RI_MOUSE_LEFT_BUTTON_UP 1
             ltac:(cbn; auto))).
  - apply (proj1 (button_mask_bit_by_bit raw w
             RI_MOUSE_RIGHT_BUTTON_DOWN RI_MOUSE_RIGHT_BUTTON_UP 2
             ltac:(cbn; auto))).
Defined.

(** X8.  The button mask stays a 5-bit mask: when the emulated mouse holds
    a mask in 0..31, the mask written back is in 0..31 too, for every
    report. *)
Theorem button_mask_stays_5_bit (raw : RAWINPUT) (w : World) :
  0 <= mouse_buttons w < 32 ->
  0 <= mouse_buttons (exec (mouse_handle raw) w) < 32.
Proof.
  intros Hb; rewrite mouse_handle_buttons.
  set (flags := usButtonFlags (data_mouse raw)).
  assert (N : 0 <= buttons_after flags (mouse_buttons w)).
  { unfold buttons_after; repeat apply button_val_nonneg; lia. }
  split; [exact N|].
  pose proof (buttons_after_high flags (mouse_buttons w)) as H.
  rewrite !Z.shiftr_div_pow2 in H by lia.
  change (2 ^ 5) with 32 in H.
  Z.to_euclidean_division_equations; lia.
Qed.

Lemma button_mask_stays_5_bit_witness :
  0 <= mouse_buttons
         (exec (mouse_handle (mouse_report 0 0x3FF 0 0 0))
               (initial_World 1 sample_rect)) < 32.
Proof.
  apply (button_mask_stays_5_bit (mouse_report 0 0x3FF 0 0 0)
           (initial_World 1 sample_rect)).
  cbn; lia.
Defined.

(** X9.  Press, then release: a report carrying only a button's DOWN flag
    followed by a report carrying only its UP flag sets the button's bit and
    then gives back the mask the emulated mouse had before, when the bit was
    clear in it. *)
Theorem press_then_release_restores_mask
    (press rel : RAWINPUT) (w : World) (down up bit : Z) :
  let w1 := exec (mouse_handle press) w in
  let w2 := exec (mouse_handle rel) w1 in
  In (down, up, bit) button_flags ->
  usButtonFlags (data_mouse press) = down ->
  usButtonFlags (data_mouse rel) = up ->
  Z.land (mouse_buttons w) bit = 0 ->
  mouse_buttons w1 = Z.lor (mouse_buttons w) bit
  /\ mouse_buttons w2 = mouse_buttons w.
Proof.
  intros w1 w2 Hin Hp Hr Hclear; subst w1 w2.
  rewrite !mouse_handle_buttons, Hp, Hr.
  cbn [In button_flags] in Hin.
  repeat (destruct Hin as [Hin|Hin];
          [ inversion Hin; subst down up bit; clear Hin;
            unfold buttons_after, button_val; eval_flag_tests;
            split; [reflexivity | apply lor_then_clear; exact Hclear] | ]).
  contradiction.
Qed.

Lemma press_then_release_restores_mask_witness :
  let w := initial_World 1 sample_rect in
  let w1 := exec (mouse_handle (mouse_report 0 RI_MOUSE_BUTTON_4_DOWN 0 0 0)) w in
  let w2 := exec (mouse_handle (mouse_report 0 RI_MOUSE_BUTTON_4_UP 0 0 0)) w1 in
  mouse_buttons w1 = 8 /\ mouse_buttons w2 = 0.
Proof.
  intros w w1 w2.
  apply (press_then_release_restores_mask
           (mouse_report 0 RI_MOUSE_BUTTON_4_DOWN 0 0 0)
           (mouse_report 0 RI_MOUSE_BUTTON_4_UP 0 0 0) w
           RI_MOUSE_BUTTON_4_DOWN RI_MOUSE_BUTTON_4_UP 8).
  - cbn; auto 6.
  - reflexivity.
  - reflexivity.
  - reflexivity.
Defined.

Lemma to_SHORT_range z : in_SHORT (to_SHORT z).
Proof.
  unfold in_SHORT, to_SHORT.
  pose proof (Z.mod_pos_bound (z + 2 ^ 15) (2 ^ 16) ltac:(lia)); lia.
Qed.

Lemma mouse_handle_delta_z raw w :
  static_delta_z (exec (mouse_handle raw) w) = wheel_after (data_mouse raw).
Proof. unfold exec; rewrite mouse_handle_run; reflexivity. Qed.

Lemma in_mouse_handle_calls_MouseSetZ raw w z :
  In (MouseSetZ z) (mouse_handle_calls raw w) ->
  has (usButtonFlags (data_mouse raw)) RI_MOUSE_WHEEL = true
  /\ z = to_SHORT (usButtonData (data_mouse raw)) ÷ 120.
Proof.
  unfold mouse_handle_calls, wheel_calls.
  destruct (has (usButtonFlags (data_mouse raw)) RI_MOUSE_WHEEL); cbn;
    intros H; repeat (destruct H as [H|H]; try discriminate);
    try contradiction.
  injection H as <-; auto.
Qed.

(** X10.  The wheel delta of a report is at most 273 detents either way,
    whatever [usButtonData] holds; wheel motion of less than one detent
    (fewer than 120 units) is rounded to 0, so the only value
    [mouse_set_z] can then receive is 0. *)
Theorem wheel_delta_bounds (raw : RAWINPUT) (w : World) :
  let state := data_mouse raw in
  let dz := static_delta_z (exec (mouse_handle raw) w) in
  -273 <= dz <= 273
  /\ (forall z, In (MouseSetZ z) (emitted (mouse_handle raw) w) -> z = dz)
  /\ (Z.abs (to_SHORT (usButtonData state)) < 120 -> dz = 0).
Proof.
  intros state dz; subst dz.
  rewrite mouse_handle_delta_z, mouse_handle_emitted; fold state.
  pose proof (to_SHORT_range (usButtonData state)) as R.
  unfold in_SHORT in R; change (2 ^ 15) with 32768 in R.
  unfold wheel_after.
  split; [|split].
  - destruct (has (usButtonFlags state) RI_MOUSE_WHEEL); [|lia].
    Z.to_euclidean_division_equations; lia.
  - intros z Hin; apply in_mouse_handle_calls_MouseSetZ in Hin as [Hw ->].
    fold state in Hw; now rewrite Hw.
  - intros Hs; destruct (has (usButtonFlags state) RI_MOUSE_WHEEL); [|reflexivity].
    Z.to_euclidean_division_equations; lia.
Qed.

Lemma wheel_delta_bounds_witness :
  static_delta_z
    (exec (mouse_handle (mouse_report 0 RI_MOUSE_WHEEL 0xFFE2 0 0))
          (initial_World 1 sample_rect)) = 0.
Proof.
  apply (proj2 (proj2 (wheel_delta_bounds
           (mouse_report 0 RI_MOUSE_WHEEL 0xFFE2 0 0)
           (initial_World 1 sample_rect)))).
  cbn; lia.
Defined.

(** X11.  The point the host cursor is moved to lies inside the window
    rectangle: between left and right, and between top and bottom (whichever
    way round they are). *)
Theorem recenter_within_window (raw : RAWINPUT) (w : World) (X Y : Z) :
  let rect := window_rect w in
  rect_ok rect ->
  In (SetCursorPosCall X Y) (emitted (mouse_handle raw) w) ->
  Z.min (rect_left rect) (rect_right rect) <= X
    <= Z.max (rect_left rect) (rect_right rect)
  /\ Z.min (rect_top rect) (rect_bottom rect) <= Y
       <= Z.max (rect_top rect) (rect_bottom rect).
Proof.
  intros rect Hr Hin.
  rewrite mouse_handle_emitted in Hin.
  destruct (mouse_handle_calls_shape raw w) as (E & _ & FC).
  rewrite E in Hin; fold rect in Hin.
  rewrite (center_spec rect Hr) in Hin; cbn [fst snd] in Hin.
  apply in_app_or in Hin as [Hin|Hin].
  - exfalso.
    assert (F : In (SetCursorPosCall X Y)
                   (filter is_SetCursorPos
                      ([MouseSetButtonsEx
                          (buttons_after (usButtonFlags (data_mouse raw))
                                         (mouse_buttons w))]
                       ++ wheel_calls (data_mouse raw))))
      by (apply filter_In; split; [exact Hin|reflexivity]).
    rewrite FC in F; exact F.
  - destruct Hin as [Hin|[Hin|[]]]; [discriminate|].
    injection Hin as <- <-.
    Z.to_euclidean_division_equations; lia.
Qed.

Lemma recenter_within_window_witness :
  let rect := sample_rect in
  Z.min (rect_left rect) (rect_right rect) <= 500
    <= Z.max (rect_left rect) (rect_right rect)
  /\ Z.min (rect_top rect) (rect_bottom rect) <= 350
       <= Z.max (rect_top rect) (rect_bottom rect).
Proof.
  intros rect.
  apply (recenter_within_window (mouse_report 0 0 0 3 (-4))
           (initial_World 1 sample_rect) 500 350).
  - unfold rect_ok, in_int, INT_MIN, INT_MAX; cbn; lia.
  - vm_compute; auto.
Defined.

(** X12.  Slow absolute motion is lost: the previous sample advances with
    every absolute report, so a run of absolute reports that each move less
    than 25 units from the one before hands [mouse_scale] only (0, 0),
    however far the pointer has travelled in total. *)
Theorem slow_absolute_motion_is_lost (reports : list RAWINPUT) : forall w : World,
  slow_path (static_x w) (static_y w) reports ->
  filter is_MouseScale (trace (run_mouse reports w))
  = filter is_MouseScale (trace w) ++ repeat (MouseScale 0 0) (length reports).
Proof.
  induction reports as [|raw reports IH]; intros w Hs.
  - cbn; now rewrite app_nil_r.
  - destruct Hs as (Habs & Hx & Hy & Hrest).
    change (run_mouse (raw :: reports) w)
      with (run_mouse reports (exec (mouse_handle raw) w)).
    assert (S : static_x (exec (mouse_handle raw) w) = lLastX (data_mouse raw)
                /\ static_y (exec (mouse_handle raw) w) = lLastY (data_mouse raw)).
    { unfold exec; rewrite mouse_handle_run; cbn.
      unfold motion_after; rewrite Habs; auto. }
    destruct S as [Sx Sy].
    rewrite IH by (rewrite Sx, Sy; exact Hrest).
    rewrite mouse_handle_trace, filter_app, filter_MouseScale_calls.
    unfold motion_after; rewrite Habs; cbn [fst snd length repeat].
    rewrite !to_int_id by (unfold in_int, INT_MIN, INT_MAX; lia).
    replace ((lLastX (data_mouse raw) - static_x w) ÷ 25) with 0
      by (Z.to_euclidean_division_equations; lia).
    replace ((lLastY (data_mouse raw) - static_y w) ÷ 25) with 0
      by (Z.to_euclidean_division_equations; lia).
    now rewrite <- app_assoc.
Qed.

Lemma slow_absolute_motion_is_lost_witness :
  let reports := [mouse_report MOUSE_MOVE_ABSOLUTE 0 0 24 0;
                  mouse_report MOUSE_MOVE_ABSOLUTE 0 0 48 0;
                  mouse_report MOUSE_MOVE_ABSOLUTE 0 0 72 0] in
  let w := run_mouse reports (initial_World 1 sample_rect) in
  filter is_MouseScale (trace w)
  = [MouseScale 0 0; MouseScale 0 0; MouseScale 0 0].
Proof.
  intros reports w.
  apply (slow_absolute_motion_is_lost reports (initial_World 1 sample_rect)).
  cbn; repeat split; lia.
Defined.

(** ** Dispatch and the native event filter *)

Lemma filter_mouse_call_key_calls rawKB sc :
  filter is_mouse_call (key_calls rawKB sc) = [].
Proof. unfold key_calls; destruct (sc =? 0xFFFF); reflexivity. Qed.

Lemma filter_keyboard_call_mouse_calls raw w :
  filter is_keyboard_call (mouse_handle_calls raw w) = [].
Proof.
  unfold mouse_handle_calls, wheel_calls.
  destruct (has (usButtonFlags (data_mouse raw)) RI_MOUSE_WHEEL); reflexivity.
Qed.

(** X13.  [handle_input] keeps the devices apart.  A keyboard report makes
    no mouse call and leaves the mouse decoder's state alone; a mouse report
    makes no keyboard call, with capture on or off; a HID report is handed
    to the joystick handler, once and as it is, with capture on or off, and
    changes nothing else; a failed read of the raw input makes no call. *)
Theorem handle_input_keeps_devices_apart
    (csc map : Z -> Z) (len rctrl : Z) (raw : RAWINPUT) (w : World) :
  let hi := handle_input csc map len rctrl in
  (header_dwType raw = RIM_TYPEKEYBOARD ->
   filter is_mouse_call (emitted (hi (Some raw)) w) = []
   /\ decoder_state (exec (hi (Some raw)) w) = decoder_state w)
  /\ (header_dwType raw = RIM_TYPEMOUSE ->
      filter is_keyboard_call (emitted (hi (Some raw)) w) = [])
  /\ (header_dwType raw = RIM_TYPEHID ->
      hi (Some raw) w = (tt, log [WinJoystickHandle raw] w))
  /\ hi None w = (tt, w).
Proof.
  intros hi; subst hi; unfold handle_input.
  split; [|split; [|split]]; [intros Ht; rewrite Ht .. | reflexivity].
  - cbn [Z.eqb RIM_TYPEKEYBOARD Pos.eqb].
    rewrite keyboard_handle_emitted; unfold exec; rewrite keyboard_handle_run.
    split; [|reflexivity].
    unfold keyboard_calls.
    destruct (has (Flags (data_keyboard raw)) RI_KEY_E1).
    + apply filter_mouse_call_key_calls.
    + now rewrite filter_app, filter_mouse_call_key_calls.
  - cbn [Z.eqb RIM_TYPEKEYBOARD RIM_TYPEMOUSE].
    destruct (truth (mouse_capture w)) eqn:Hc.
    + assert (E : bind get_mouse_capture
                    (fun capture => if truth capture then mouse_handle raw else ret tt) w
                  = mouse_handle raw w)
        by (unfold bind, get_mouse_capture; now rewrite Hc).
      unfold emitted, exec; rewrite E.
      change (filter is_keyboard_call (emitted (mouse_handle raw) w) = []).
      rewrite mouse_handle_emitted; apply filter_keyboard_call_mouse_calls.
    + assert (E : bind get_mouse_capture
                    (fun capture => if truth capture then mouse_handle raw else ret tt) w
                  = (tt, log [] w))
        by (unfold bind, get_mouse_capture; rewrite Hc, log_nil; reflexivity).
      now rewrite (emitted_log _ tt [] w E).
  - reflexivity.
Qed.

Lemma handle_input_keeps_devices_apart_witness :
  let w := initial_World 0 sample_rect in
  let hid := mkRAWINPUT RIM_TYPEHID (mkRAWKEYBOARD 0 0) (mkRAWMOUSE 0 0 0 0 0) in
  filter is_mouse_call
    (emitted (handle_input identity_map identity_map 512 0
                (Some (key_report 0x1E 0))) w) = []
  /\ filter is_keyboard_call
       (emitted (handle_input identity_map identity_map 512 0
                   (Some (mouse_report 0 RI_MOUSE_LEFT_BUTTON_DOWN 0 1 1)))
                (with_mouse_capture 1 w)) = []
  /\ handle_input identity_map identity_map 512 0 (Some hid) w
     = (tt, log [WinJoystickHandle hid] w).
Proof.
  intros w hid; split; [|split].
  - exact (proj1 (proj1 (handle_input_keeps_devices_apart identity_map
             identity_map 512 0 (key_report 0x1E 0) w) eq_refl)).
  - exact (proj1 (proj2 (handle_input_keeps_devices_apart identity_map
             identity_map 512 0
             (mouse_report 0 RI_MOUSE_LEFT_BUTTON_DOWN 0 1 1)
             (with_mouse_capture 1 w))) eq_refl).
  - exact (proj1 (proj2 (proj2 (handle_input_keeps_devices_apart identity_map
             identity_map 512 0 hid w))) eq_refl).
Defined.

Lemma handle_in_active_renderer_spec csc map len rctrl rs input w :
  handle_in_active_renderer csc map len rctrl rs input w
  = (tt, if existsb (fun r => match r with Some active => active | None => false end) rs
         then exec (handle_input csc map len rctrl input) w
         else w).
Proof.
  induction rs as [|r rs IH]; [reflexivity|].
  cbn [handle_in_active_renderer existsb].
  destruct (match r with Some active => active | None => false end);
    cbn [orb]; [apply exec_unit | exact IH].
Qed.

(** X14.  A WM_INPUT message is always consumed (the filter returns true).
    The raw input it carries is handled when the main window is active with
    no menu open, or else when some renderer window is active, and then
    exactly once, however many renderers are active; otherwise it is dropped
    and nothing changes. *)
Theorem WM_INPUT_is_consumed_and_gated
    (csc map : Z -> Z) (len rctrl : Z) (window : MainWindow) (menus_open : Z)
    (msg : MSG) (w : World) :
  message msg = WM_INPUT ->
  nativeEventFilter csc map len rctrl window menus_open
    "windows_generic_MSG"%string msg w
  = (true,
     if input_accepted window menus_open
     then exec (handle_input csc map len rctrl (lParam msg)) w
     else w).
Proof.
  intros Hm; unfold nativeEventFilter, input_accepted.
  rewrite String.eqb_refl, Hm, Z.eqb_refl.
  unfold bind.
  destruct (isActiveWindow window && (menus_open =? 0)); cbn [orb].
  - now rewrite exec_unit.
  - now rewrite handle_in_active_renderer_spec.
Qed.

Lemma WM_INPUT_is_consumed_and_gated_witness :
  let w := initial_World 0 sample_rect in
  let msg := mkMSG WM_INPUT 0 (Some (key_report 0x1E 0)) in
  (* a menu is open, two renderers are active *)
  nativeEventFilter identity_map identity_map 512 0
    (mkMainWindow true [None; Some false; Some true; Some true]) 1
    "windows_generic_MSG"%string msg w
  = (true, log [KeyboardInput true 0x1E; CheckFullscreenHotkey] w)
  (* a menu is open and no renderer is active *)
  /\ nativeEventFilter identity_map identity_map 512 0
       (mkMainWindow true [None; Some false]) 1
       "windows_generic_MSG"%string msg w
     = (true, w).
Proof.
  intros w msg; split.
  - exact (WM_INPUT_is_consumed_and_gated identity_map identity_map 512 0
             (mkMainWindow true [None; Some false; Some true; Some true]) 1
             msg w eq_refl).
  - exact (WM_INPUT_is_consumed_and_gated identity_map identity_map 512 0
             (mkMainWindow true [None; Some false]) 1 msg w eq_refl).
Defined.

(** X15.  No other message reaches the decoders: for an event type other
    than "windows_generic_MSG", or a message other than WM_INPUT, the filter
    makes no call and changes nothing, and it consumes the message only when
    it is a generic WM_SYSKEYDOWN whose wParam is 0x73 (Alt-F4). *)
Theorem other_messages_reach_no_decoder
    (csc map : Z -> Z) (len rctrl : Z) (window : MainWindow) (menus_open : Z)
    (eventType : String.string) (msg : MSG) (w : World) :
  eventType <> "windows_generic_MSG"%string \/ message msg <> WM_INPUT ->
  nativeEventFilter csc map len rctrl window menus_open eventType msg w
  = (String.eqb eventType "windows_generic_MSG"%string
     && (message msg =? WM_SYSKEYDOWN) && (wParam msg =? 0x73), w).
Proof.
  intros H; unfold nativeEventFilter.
  destruct (String.eqb_spec eventType "windows_generic_MSG"%string) as [E|_];
    [|reflexivity].
  destruct H as [H|H]; [contradiction|].
  destruct (Z.eqb_spec (message msg) WM_INPUT) as [|_]; [contradiction|].
  destruct (message msg =? WM_SYSKEYDOWN); [|reflexivity].
  destruct (wParam msg =? 0x73); reflexivity.
Qed.

Lemma other_messages_reach_no_decoder_witness :
  let w := initial_World 1 sample_rect in
  let window := mkMainWindow true [] in
  nativeEventFilter identity_map identity_map 512 0 window 0
    "windows_generic_MSG"%string (mkMSG WM_SYSKEYDOWN 0x73 None) w = (true, w)
  /\ nativeEventFilter identity_map identity_map 512 0 window 0
       "windows_generic_MSG"%string (mkMSG WM_SYSKEYDOWN 0x70 None) w = (false, w)
  /\ nativeEventFilter identity_map identity_map 512 0 window 0
       "windows_dispatcher_MSG"%string
       (mkMSG WM_INPUT 0 (Some (key_report 0x1E 0))) w = (false, w).
Proof.
  intros w window; split; [|split].
  - apply (other_messages_reach_no_decoder identity_map identity_map 512 0
             window 0 "windows_generic_MSG"%string (mkMSG WM_SYSKEYDOWN 0x73 None) w).
    right; discriminate.
  - apply (other_messages_reach_no_decoder identity_map identity_map 512 0
             window 0 "windows_generic_MSG"%string (mkMSG WM_SYSKEYDOWN 0x70 None) w).
    right; discriminate.
  - apply (other_messages_reach_no_decoder identity_map identity_map 512 0
             window 0 "windows_dispatcher_MSG"%string
             (mkMSG WM_INPUT 0 (Some (key_report 0x1E 0))) w).
    left; discriminate.
Defined.
